(** * pyveloedi: the Veloconnect client of [pyveloedi/veloconnect.py]

    A shallow embedding of the protocol engine: the binding table built
    from the partner's profile, the dispatch loop with its retry and
    response-code policy, the renderings of every operation for both
    transports, and the catalog operations built on top of them.

    Python objects are modelled as follows.
    - An lxml element is a rose tree [Element]; a qualified tag is written
      with the prefix the source uses in its paths ([vct:ResponseCode]).
    - A raised exception is a value of [exn]; a function that may raise
      returns a [result].
    - The network is an oracle: the body that the partner sends back may
      depend on every request issued so far.  A computation that talks to
      the network is a function of the list of requests already issued and
      returns that list extended ([io]).
    - [dict] is a [gmap]; the keys of the binding table are the [.text] of
      an element, hence [option string] ([None] for an empty element). *)

From stdpp Require Import base option list strings gmap pretty.
From Stdlib Require Import ZArith Lia Ascii.

Open Scope Z_scope.

(** ** Values and exceptions *)

(** The Python values that end up in a URL parameter list. *)
Inductive pyval : Type :=
| PNone
| PStr (s : string)
| PInt (z : Z)
| PBool (b : bool).

(** [str(v)] *)
Definition py_str (v : pyval) : string :=
  match v with
  | PNone => "None"
  | PStr s => s
  | PInt z => pretty z
  | PBool true => "True"
  | PBool false => "False"
  end.

(** Truth value of an optional string ([None] and [''] are false). *)
Definition truthy (s : option string) : bool :=
  match s with
  | None => false
  | Some EmptyString => false
  | Some _ => true
  end.

Inductive exn : Type :=
| VeloConnectException (_code : Z) (_msg : string)
| KeyError (key : pyval)
| AttributeError
| TypeError
| ValueError
| NotImplementedError (msg : string)
| XMLSyntaxError
| UnicodeDecodeError
| UnboundLocalError
| RequestException.

Inductive result (A : Type) : Type :=
| Ok (a : A)
| Raise (e : exn).
Arguments Ok {A} a.
Arguments Raise {A} e.

Definition rbind {A B} (r : result A) (k : A -> result B) : result B :=
  match r with
  | Ok a => k a
  | Raise e => Raise e
  end.

(** ** XML trees *)

#[local] Unset Elimination Schemes.
Inductive Element : Type :=
| Elem (tag : string) (attrib : list (string * string))
       (text : option string) (children : list Element).

#[local] Set Elimination Schemes.

Definition tag (e : Element) : string := let 'Elem t _ _ _ := e in t.
Definition attrib (e : Element) : list (string * string) :=
  let 'Elem _ a _ _ := e in a.
Definition text (e : Element) : option string := let 'Elem _ _ x _ := e in x.
Definition children (e : Element) : list Element :=
  let 'Elem _ _ _ c := e in c.

(** [e.get(name)] *)
Fixpoint attr_get (name : string) (l : list (string * string)) : option string :=
  match l with
  | [] => None
  | (k, v) :: l' => if bool_decide (k = name) then Some v else attr_get name l'
  end.

(** The children of [e] that carry tag [t], in document order
    (the XPath step [t] from the context node [e]). *)
Definition step (t : string) (e : Element) : list Element :=
  filter (fun c => tag c = t) (children e).

(** [e.find(t)] for a one-step path: the first child with that tag. *)
Definition find (t : string) (e : Element) : option Element :=
  head (step t e).

(** [e.find('a/b')] *)
Definition find2 (a b : string) (e : Element) : option Element :=
  head (flat_map (step b) (step a e)).

(** Every element of the tree rooted at [e], in document order. *)
Fixpoint iter (e : Element) : list Element :=
  match e with
  | Elem _ _ _ cs => e :: flat_map iter cs
  end.

(** [root.xpath('/t')]: an absolute one-step path selects the document
    element when it carries the tag, and nothing else. *)
Definition xpath_root (t : string) (root : Element) : list Element :=
  if bool_decide (tag root = t) then [root] else [].

(** [root.xpath('/t/u')] *)
Definition xpath_root2 (t u : string) (root : Element) : list Element :=
  flat_map (step u) (xpath_root t root).

(** [root.xpath('/t/u/v')] *)
Definition xpath_root3 (t u v : string) (root : Element) : list Element :=
  flat_map (step v) (xpath_root2 t u root).

(** [root.xpath('//t')] *)
Definition xpath_any (t : string) (root : Element) : list Element :=
  filter (fun c => tag c = t) (iter root).

(** [root.xpath('//t/u')]: the elements tagged [u] whose parent is tagged
    [t], in document order. *)
Fixpoint iter_under (t u : string) (parent : string) (e : Element) : list Element :=
  match e with
  | Elem g _ _ cs =>
      (if bool_decide (parent = t) && bool_decide (g = u) then [e] else [])
        ++ flat_map (iter_under t u g) cs
  end.

Definition xpath_any2 (t u : string) (root : Element) : list Element :=
  flat_map (iter_under t u (tag root)) (children root).

(** ** Error catalog *)

Definition ERR_NONE : Z := 200.
Definition ERR_ANY : Z := 400.
Definition ERR_NOT_SUPPORTED : Z := 404.
Definition ERR_WRONG_REQUEST : Z := 405.
Definition ERR_OLD_REQUEST : Z := 406.
Definition ERR_UNKNOWN_USER : Z := 410.
Definition ERR_AUTH_FAILED : Z := 411.
Definition ERR_UNKNOWN_SELLERS_ID : Z := 415.
Definition ERR_UNKNOWN_TRANSACTION_ID : Z := 420.
Definition ERR_CANT_CREATE_TRANSACTION : Z := 421.
Definition ERR_ILLEGAL_OP : Z := 430.
Definition ERR_ILLEGAL_ISTEST : Z := 435.
Definition ERR_INTERNAL : Z := 500.
Definition ERR_INVALID_MAX_TRIES : Z := 513.
Definition ERR_MAX_TRIES_REACHED : Z := 514.
Definition ERR_MULTIPLE_ELEMENT_FOUND : Z := 460.
Definition ERR_ELEMENT_NOT_FOUND : Z := 461.

Definition ERR_CODES : gmap Z string :=
  list_to_map [
    (ERR_ANY, "General error.");
    (ERR_NOT_SUPPORTED, "Request not supported.");
    (ERR_WRONG_REQUEST, "Wrong request.");
    (ERR_OLD_REQUEST, "Wrong request. (Old version)");
    (ERR_UNKNOWN_USER, "Unknown user.");
    (ERR_AUTH_FAILED, "Authentication failed.");
    (ERR_UNKNOWN_SELLERS_ID, "Unknown sellers ID");
    (ERR_UNKNOWN_TRANSACTION_ID, "Unknown transaction ID");
    (ERR_CANT_CREATE_TRANSACTION, "Can't create further transactions.");
    (ERR_ILLEGAL_OP, "Operation not possible in current transaction state.");
    (ERR_ILLEGAL_ISTEST, "IsTest not allowed in current transaction state.");
    (ERR_INTERNAL, "Internal error.");
    (ERR_INVALID_MAX_TRIES, "Max tries values should be greater than 0.");
    (ERR_MAX_TRIES_REACHED, "Max tries reached.");
    (ERR_MULTIPLE_ELEMENT_FOUND, "More than one elements found.");
    (ERR_ELEMENT_NOT_FOUND, "Element not found")
  ].

(** The exception that [raise VeloConnectException(code)] raises: the
    constructor indexes [ERR_CODES] before the exception object exists, so
    a code without an entry raises [KeyError] instead. *)
Definition raise_VeloConnectException (code : Z) : exn :=
  match ERR_CODES !! code with
  | Some m => VeloConnectException code (m +:+ " (Code: " +:+ pretty code +:+ ")")
  | None => KeyError (PInt code)
  end.

(** Modelled from the spec: the [code] attribute of [EDIException], whose
    class is declared in [base.py], outside the sources. A protocol error
    carries its code: [e.code] is the [_code] that
    [VeloConnectException.__init__] sets. *)
Definition code (e : exn) : option Z :=
  match e with
  | VeloConnectException c _ => Some c
  | _ => None
  end.

(** ** The session *)

(** The binding table: operation name to (binding, URI). *)
Abbreviation BindingTable := (gmap (option string) (option string * string)).

Record Context : Type := {
  _url : string;
  _userid : string;
  _passwd : string;
  _istest : bool;
  _use_objects : bool;
  _params : option BindingTable;
  MAX_FETCH_TRIES : Z
}.

(** [Context.__init__(url, userid, passwd, istest, log, use_objects)];
    the class attribute [MAX_FETCH_TRIES] is 3. *)
Definition Context_init (url userid passwd : string) (istest use_objects : bool)
  : Context :=
  {| _url := url; _userid := userid; _passwd := passwd; _istest := istest;
     _use_objects := use_objects; _params := None; MAX_FETCH_TRIES := 3 |}.

Definition set_params (ctx : Context) (p : option BindingTable) : Context :=
  {| _url := _url ctx; _userid := _userid ctx; _passwd := _passwd ctx;
     _istest := _istest ctx; _use_objects := _use_objects ctx;
     _params := p; MAX_FETCH_TRIES := MAX_FETCH_TRIES ctx |}.

(** ** Binding table of a profile ([GetProfile.get_params], the loop) *)

Definition is_xml_post (b : option string) : bool :=
  bool_decide (b = Some "XML-POST") || bool_decide (b = Some "XML-POST-S").

(** [uri is not None and uri.text or self._ctx._url] *)
Definition uri_text_of (url : string) (uri : option Element) : string :=
  match uri with
  | Some u => if truthy (text u) then default url (text u) else url
  | None => url
  end.

(** [op = find('vcp:Transaction'); if op is None: op = find('vcp:Operation')] *)
Definition op_of (impl : Element) : option Element :=
  match find "vcp:Transaction" impl with
  | Some o => Some o
  | None => find "vcp:Operation" impl
  end.

(** The body of [for impl in implements], threaded through [bindings]. *)
Fixpoint build_bindings (url : string) (implements : list Element)
    (bindings : BindingTable) : result BindingTable :=
  match implements with
  | [] => Ok bindings
  | impl :: rest =>
      let binding := find "vcp:Binding" impl in
      let uri_text := uri_text_of url (find "vcp:URI" impl) in
      let op := op_of impl in
      match binding with
      | None => Raise AttributeError
      | Some b =>
          if is_xml_post (text b) then
            match op with
            | None => Raise AttributeError
            | Some o =>
                build_bindings url rest
                  (<[text o := (Some "XML-POST", uri_text)]> bindings)
            end
          else
            match op with
            | None => Raise AttributeError
            | Some o =>
                match bindings !! text o with
                | Some _ => build_bindings url rest bindings
                | None =>
                    build_bindings url rest
                      (<[text o := (text b, uri_text)]> bindings)
                end
            end
      end
  end.

(** ** The network and the other collaborators *)

Inductive HttpRequest : Type :=
| HttpGet (uri : string) (params : list (string * pyval))
| HttpPost (uri : string) (data : string) (headers : list (string * string)).

(** What the code takes from outside [veloconnect.py]. *)
Record Externals : Type := {
  (** [requests.get] / [requests.post] followed by
      [resp.text.encode(encoding)]: the body received for a request, given
      the requests issued before it; [None] when the call raises. *)
  http_send : list HttpRequest -> HttpRequest -> option string;
  (** [etree.fromstring]; [None] stands for [XMLSyntaxError]. *)
  etree_fromstring : string -> option Element;
  (** [etree.tostring(_, pretty_print=True)] *)
  etree_tostring : Element -> string;
  (** [int(s)] on a string; [None] stands for [ValueError]. *)
  py_int : string -> option Z;
  (** whether [res.decode()] succeeds on a body *)
  utf8_decodable : string -> bool;
  (** Fields declared with the descriptors of [base.py], which is not part
      of the sources: the value a field yields on the subtree an entity
      wraps, or [None] when no path matches. *)
  field_tan : Element -> option string;          (* String('vct:TransactionID') *)
  field_count : Element -> option Z;             (* Integer('vcc:TotalCount') *)
  field_replacement : Element -> option string   (* Product.replacement *)
}.

(** A computation that may issue requests: from the requests issued so far
    to a result and the requests issued once it is over. *)
Definition io (A : Type) : Type :=
  list HttpRequest -> result A * list HttpRequest.

Definition ret {A} (a : A) : io A := fun sent => (Ok a, sent).
Definition raise {A} (e : exn) : io A := fun sent => (Raise e, sent).
Definition bind {A B} (c : io A) (k : A -> io B) : io B :=
  fun sent =>
    match c sent with
    | (Ok a, sent') => k a sent'
    | (Raise e, sent') => (Raise e, sent')
    end.
Definition lift {A} (r : result A) : io A := fun sent => (r, sent).

Notation "x <- c ;; k" := (bind c (fun x => k))
  (at level 100, c at next level, right associativity).

(** ** Operations *)

(** An operation object together with the attributes its [execute] sets. *)
Inductive Operation : Type :=
| Rollback (_tan : option string)
| GetProfile
| GetClassificationScheme
| GetItemDetails (_code : string)
| GetItemDetailsList (_codes : list string)
| CreateTextSearch (_keywords : option string)
| SearchResult (_tan : option string) (_offset : Z) (_limit : pyval)
| SearchReadResult (_tan : option string) (_offset : Z) (_limit : pyval)
| CreateOrder (_lines : list Element)
| UpdateOrder (_tan : option string) (_lines : list Element)
| ViewOrder (_tan : option string)
| FinishOrder (_tan : option string).

Definition _name (op : Operation) : string :=
  match op with
  | Rollback _ => "Rollback"
  | GetProfile => "GetProfile"
  | GetClassificationScheme => "GetClassificationScheme"
  | GetItemDetails _ => "GetItemDetails"
  | GetItemDetailsList _ => "GetItemDetailsList"
  | CreateTextSearch _ | SearchResult _ _ _ | SearchReadResult _ _ _ => "TextSearch"
  | CreateOrder _ | UpdateOrder _ _ | ViewOrder _ | FinishOrder _ => "Order"
  end.

(** An [ElementMaker] call with one string child, and with element
    children. A child of another type ([None], a list) is refused with
    [TypeError]. *)
Definition E (t : string) (s : string) : Element := Elem t [] (Some s) [].
Definition EN (t : string) (cs : list Element) : Element := Elem t [] None cs.
Definition E_opt (t : string) (s : option string) : result Element :=
  match s with
  | Some s => Ok (E t s)
  | None => Raise TypeError
  end.

(** [self._xml_auth] and [self._xml_istest] of [Operation.__init__] *)
Definition _xml_auth (ctx : Context) : list Element :=
  [ E "vct:BuyersID" (_userid ctx);
    EN "vct:Credential" [E "vct:Password" (_passwd ctx)] ].

Definition _xml_istest (ctx : Context) : Element :=
  E "vct:IsTest" (if _istest ctx then "1" else "0").

Definition opt_val (s : option string) : pyval :=
  match s with
  | Some s => PStr s
  | None => PNone
  end.

(** The loop of [CreateOrder.get_url_args]. *)
Fixpoint order_url_args (lines : list Element) : result (list (string * pyval)) :=
  match lines with
  | [] => Ok []
  | line :: rest =>
      match find2 "cac:SellersItemIdentification" "cac:ID" line with
      | None => Raise AttributeError
      | Some idn =>
          let quantity := find "cbc:Quantity" line in
          match text idn with
          | None => Raise TypeError
          | Some product_id =>
              match quantity with
              | None => Raise AttributeError
              | Some q =>
                  rbind (order_url_args rest) (fun args =>
                    Ok (("Quantity." +:+ product_id, opt_val (text q))
                        :: ("quantityUnitCode." +:+ product_id,
                            opt_val (attr_get "quantityUnitCode" (attrib q)))
                        :: args))
              end
          end
      end
  end.

Definition get_url_args (op : Operation) : result (list (string * pyval)) :=
  match op with
  | Rollback tan =>
      Ok [("RequestName", PStr "RollbackRequest"); ("TransactionID", opt_val tan)]
  | GetItemDetails c =>
      Ok [("RequestName", PStr "GetItemDetailsRequest");
          ("SellersItemIdentification", PStr c)]
  | GetItemDetailsList codes =>
      Ok (("RequestName", PStr "GetItemDetailsListRequest")
          :: map (fun c => ("SellersItemIdentification", PStr c)) codes)
  | CreateTextSearch keywords =>
      Ok (("RequestName", PStr "CreateTextSearchRequest")
          :: (if truthy keywords then [("SearchString", opt_val keywords)] else []))
  | SearchResult tan offset limit =>
      Ok [("RequestName", PStr "SearchResultRequest");
          ("TransactionID", opt_val tan);
          ("StartIndex", PInt offset);
          ("Count", limit);
          ("ResultFormat", PStr "ID_ONLY")]
  | SearchReadResult tan offset limit =>
      Ok [("RequestName", PStr "SearchResultRequest");
          ("TransactionID", opt_val tan);
          ("StartIndex", PInt offset);
          ("Count", limit);
          ("ResultFormat", PStr "ITEM_DETAIL")]
  | CreateOrder lines =>
      rbind (order_url_args lines) (fun args =>
        Ok (("RequestName", PStr "CreateOrderRequest") :: args))
  | FinishOrder tan =>
      Ok [("RequestName", PStr "FinishOrderRequest"); ("TransactionID", opt_val tan)]
  | GetProfile | GetClassificationScheme | UpdateOrder _ _ | ViewOrder _ =>
      Raise (NotImplementedError
               ("URL binding not implemented for " +:+ _name op +:+ "."))
  end.

Definition get_xml (ctx : Context) (op : Operation) : result Element :=
  match op with
  | Rollback tan =>
      rbind (E_opt "vct:TransactionID" tan) (fun t =>
        Ok (EN "vct:RollbackRequest" (_xml_auth ctx ++ [t])))
  | GetProfile =>
      Raise (NotImplementedError
               ("XML binding not implemented for " +:+ _name op +:+ "."))
  | GetClassificationScheme => Raise TypeError
  | GetItemDetails c =>
      Ok (EN "vco:GetItemDetailsRequest"
            (_xml_auth ctx
             ++ [EN "cac:SellersItemIdentification" [E "cac:ID" c]]))
  | GetItemDetailsList codes =>
      Ok (EN "vco:GetItemDetailsListRequest"
            (_xml_auth ctx
             ++ map (fun c =>
                       EN "vco:RequestEntry"
                         [EN "cac:SellersItemIdentification" [E "cac:ID" c]])
                  codes))
  | CreateTextSearch keywords =>
      Ok (EN "vcc:CreateTextSearchRequest"
            (_xml_auth ctx
             ++ (if truthy keywords
                 then [E "vcc:SearchString" (default "" keywords)] else [])))
  | SearchResult tan offset limit =>
      rbind (E_opt "vct:TransactionID" tan) (fun t =>
        Ok (EN "vcc:SearchResultRequest"
              (_xml_auth ctx
               ++ [t; E "vcc:StartIndex" (pretty offset);
                   E "vcc:Count" (py_str limit);
                   E "vcc:ResultFormat" "ID_ONLY"])))
  | SearchReadResult tan offset limit =>
      rbind (E_opt "vct:TransactionID" tan) (fun t =>
        Ok (EN "vcc:SearchResultRequest"
              (_xml_auth ctx
               ++ [t; E "vcc:StartIndex" (pretty offset);
                   E "vcc:Count" (py_str limit);
                   E "vcc:ResultFormat" "ITEM_DETAIL"])))
  | CreateOrder lines =>
      Ok (EN "vco:CreateOrderRequest"
            (_xml_auth ctx ++ [_xml_istest ctx] ++ lines))
  | UpdateOrder tan lines =>
      rbind (E_opt "vct:TransactionID" tan) (fun t =>
        Ok (EN "vco:UpdateOrderRequest"
              (_xml_auth ctx ++ [t] ++ [_xml_istest ctx] ++ lines)))
  | ViewOrder tan =>
      rbind (E_opt "vct:TransactionID" tan) (fun t =>
        Ok (EN "vco:ViewOrderRequest"
              (_xml_auth ctx ++ [t] ++ [_xml_istest ctx])))
  | FinishOrder tan =>
      rbind (E_opt "vct:TransactionID" tan) (fun t =>
        Ok (EN "vco:FinishOrderRequest"
              (_xml_auth ctx ++ [t] ++ [_xml_istest ctx])))
  end.

(** ** Entities and returned values *)

(** Modelled from the spec: the entity classes built on [Model] of
    [base.py], outside the sources. An entity is a view on the XML subtree
    it was built from; an order keeps the session as well. *)
Record Product : Type := { product_data : Element }.
Record TextSearchResponse : Type := { response_data : Element }.
Record Order : Type := { order_data : Element; order_ctx : Context }.

(** What an item or order operation hands back to its caller. *)
Inductive returned : Type :=
| RNone
| RNode (e : Element)
| RNodes (l : list Element)
| RProduct (p : Product)
| RProducts (l : list Product)
| ROrder (o : Order).

(** A value is raw when it is made of the matched nodes themselves. *)
Definition is_raw (v : returned) : bool :=
  match v with
  | RNode _ | RNodes _ => true
  | _ => false
  end.

Section Engine.

Variable X : Externals.

(** One HTTP exchange: the request is recorded, the oracle answers. *)
Definition http (r : HttpRequest) : io string :=
  fun sent =>
    match http_send X sent r with
    | Some body => (Ok body, sent ++ [r])
    | None => (Raise RequestException, sent ++ [r])
    end.

Definition XML_POST_HEADER : list (string * string) :=
  [("Content-Type", "application/xml")].

Definition xml_declaration : string :=
  let dq := String (ascii_of_nat 34) EmptyString in
  let nl := String (ascii_of_nat 10) EmptyString in
  "<?xml version=" +:+ dq +:+ "1.0" +:+ dq +:+ " encoding=" +:+ dq +:+ "utf-8"
    +:+ dq +:+ "?>" +:+ nl.

(** [Context.query_get] *)
Definition query_get (ctx : Context) (uri : string)
    (params : list (string * pyval)) : io string :=
  let params := params ++ [("BuyersID", PStr (_userid ctx));
                           ("Password", PStr (_passwd ctx));
                           ("IsTest", PBool (_istest ctx))] in
  http (HttpGet uri params).

(** [Context.query_post] *)
Definition query_post (ctx : Context) (uri : string) (data : string) : io string :=
  let data := xml_declaration +:+ data in
  http (HttpPost uri data XML_POST_HEADER).

(** The body of the [while] loop of [dispatch_request] up to the [try]:
    look the binding up, render, send, and evaluate [res.decode()] for the
    log line. *)
Definition fetch (ctx : Context) (params : BindingTable) (request : Operation)
  : io string :=
  match params !! Some (_name request) with
  | None => raise (KeyError (PStr (_name request)))
  | Some (binding, uri) =>
      res <- (if bool_decide (binding = Some "XML-POST") then
                xml <- lift (get_xml ctx request) ;;
                query_post ctx uri (etree_tostring X xml)
              else
                args <- lift (get_url_args request) ;;
                query_get ctx uri args) ;;
      if utf8_decodable X res then ret res else raise UnicodeDecodeError
  end.

(** The [while ntry < self.MAX_FETCH_TRIES] loop. [remaining] is
    [MAX_FETCH_TRIES - ntry], so the loop condition holds exactly when
    [remaining] is a successor. The loop yields [ntry] and the value of
    [root] ([None] while it is unbound). *)
Fixpoint fetch_loop (ctx : Context) (params : BindingTable) (request : Operation)
    (remaining : nat) (ntry : Z) : io (Z * option Element) :=
  match remaining with
  | O => ret (ntry, None)
  | S remaining' =>
      res <- fetch ctx params request ;;
      match etree_fromstring X res with
      | Some root => ret (ntry, Some root)
      | None => fetch_loop ctx params request remaining' (ntry + 1)
      end
  end.

(** [rcode, = root.xpath('//vct:ResponseCode', ...)] and
    [err = int(rcode.text)] *)
Definition response_code (root : Element) : result Z :=
  match xpath_any "vct:ResponseCode" root with
  | [rcode] =>
      match text rcode with
      | None => Raise TypeError
      | Some s =>
          match py_int X s with
          | None => Raise ValueError
          | Some err => Ok err
          end
      end
  | _ => Raise ValueError
  end.

(** The part of [dispatch_request] after the loop. *)
Definition check_response (root : Element) : result Element :=
  rbind (response_code root) (fun err =>
    if bool_decide (err <> ERR_NONE)
    then Raise (raise_VeloConnectException err)
    else Ok root).

(** [Context.dispatch_request] *)
Definition dispatch_request (ctx : Context) (request : Operation) : io Element :=
  match _params ctx with
  | None => raise TypeError
  | Some params =>
      if bool_decide (params !! Some (_name request) = None) then
        raise (raise_VeloConnectException ERR_NOT_SUPPORTED)
      else if bool_decide (MAX_FETCH_TRIES ctx <= 0) then
        raise (raise_VeloConnectException ERR_INVALID_MAX_TRIES)
      else
        r <- fetch_loop ctx params request (Z.to_nat (MAX_FETCH_TRIES ctx)) 0 ;;
        if bool_decide (r.1 = MAX_FETCH_TRIES ctx) then
          raise (raise_VeloConnectException ERR_MAX_TRIES_REACHED)
        else
          match r.2 with
          | None => raise UnboundLocalError
          | Some root => lift (check_response root)
          end
  end.

(** ** Discovery *)

(** [GetProfile.get_params] *)
Definition get_params (ctx : Context) : io BindingTable :=
  profile <- query_get ctx (_url ctx) [("RequestName", PStr "GetProfileRequest")] ;;
  match etree_fromstring X profile with
  | None => raise XMLSyntaxError
  | Some root =>
      let implements :=
        xpath_root3 "vcp:GetProfileResponse" "vcp:VeloconnectProfile"
          "vcp:Implements" root in
      lift (build_bindings (_url ctx) implements ∅)
  end.

(** [Context._load_params]: the session after the call, paired with the
    outcome. *)
Definition _load_params (ctx : Context) : list HttpRequest ->
    (result unit * Context) * list HttpRequest :=
  fun sent =>
    match _params ctx with
    | Some _ => ((Ok tt, ctx), sent)
    | None =>
        match get_params ctx sent with
        | (Ok table, sent') => ((Ok tt, set_params ctx (Some table)), sent')
        | (Raise e, sent') => ((Raise e, ctx), sent')
        end
    end.

(** Modelled from the spec: [copy] of [base.py], outside the sources,
    binds a class to the session. What [Context.get] returns is that
    class, or [None]. *)
Inductive model_class : Type :=
| ProductClass (_ctx : Context)
| OrderClass (_ctx : Context)
| NoClass.

(** [Context.get] *)
Definition get (ctx : Context) (clsname : string) : list HttpRequest ->
    (result model_class * Context) * list HttpRequest :=
  fun sent =>
    match _load_params ctx sent with
    | ((Ok _, ctx'), sent') =>
        ((Ok (if bool_decide (clsname = "Product") then ProductClass ctx'
              else if bool_decide (clsname = "Order") then OrderClass ctx'
              else NoClass), ctx'), sent')
    | ((Raise e, ctx'), sent') => ((Raise e, ctx'), sent')
    end.

(** ** The operation catalog *)

(** [Operation._format_item]: [not product.replacement and product or None].
    An entity object is true in a boolean context (no [__bool__] or
    [__len__] is involved), so the expression is the product when the
    replacement is empty or absent, and [None] otherwise. *)
Definition _format_item (item : Element) : option Product :=
  let product := {| product_data := item |} in
  if negb (truthy (field_replacement X (product_data product)))
  then Some product else None.

(** [Operation._format_items] *)
Fixpoint _format_items (items : list Element) : list Product :=
  match items with
  | [] => []
  | item :: rest =>
      match _format_item item with
      | Some product => product :: _format_items rest
      | None => _format_items rest
      end
  end.

(** [Operation.execute], inherited by [GetClassificationScheme] *)
Definition Operation_execute (ctx : Context) (op : Operation) : io unit :=
  _ <- dispatch_request ctx op ;; ret tt.

(** [Rollback.execute] *)
Definition Rollback_execute (ctx : Context) (tan : option string) : io unit :=
  _ <- dispatch_request ctx (Rollback tan) ;; ret tt.

(** [GetItemDetails.execute] after the dispatch: from the matched nodes to
    the value returned. *)
Definition GetItemDetails_select (ctx : Context) (item : list Element)
  : result returned :=
  if bool_decide (1 < length item)%nat then
    Raise (raise_VeloConnectException ERR_MULTIPLE_ELEMENT_FOUND)
  else
    match item with
    | [] => Raise (raise_VeloConnectException ERR_ELEMENT_NOT_FOUND)
    | item0 :: _ =>
        if negb (_use_objects ctx) then Ok (RNode item0)
        else Ok (match _format_item item0 with
                 | Some p => RProduct p
                 | None => RNone
                 end)
    end.

(** [GetItemDetails.execute] *)
Definition GetItemDetails_execute (ctx : Context) (c : string) : io returned :=
  root <- dispatch_request ctx (GetItemDetails c) ;;
  lift (GetItemDetails_select ctx (xpath_root "vco:GetItemDetailsResponse" root)).

(** The last three lines shared by [GetItemDetailsList.execute] and
    [SearchReadResult.execute]. *)
Definition items_returned (ctx : Context) (items : list Element) : returned :=
  if negb (_use_objects ctx) then RNodes items
  else RProducts (_format_items items).

(** [GetItemDetailsList.execute] *)
Definition GetItemDetailsList_execute (ctx : Context) (codes : list string)
  : io returned :=
  root <- dispatch_request ctx (GetItemDetailsList codes) ;;
  ret (items_returned ctx
         (xpath_root2 "vco:GetItemDetailsListResponse" "vco:ItemDetail" root)).

(** [CreateTextSearch.execute] *)
Definition CreateTextSearch_execute (ctx : Context) (keywords : option string)
  : io TextSearchResponse :=
  root <- dispatch_request ctx (CreateTextSearch keywords) ;;
  ret {| response_data := root |}.

(** [SearchResult.execute] *)
Definition SearchResult_execute (ctx : Context) (tan : option string)
    (offset : Z) (limit : pyval) : io (list (option string)) :=
  root <- dispatch_request ctx (SearchResult tan offset limit) ;;
  ret (map text (xpath_any2 "cac:SellersItemIdentification" "cac:ID" root)).

(** [SearchReadResult.execute] *)
Definition SearchReadResult_execute (ctx : Context) (tan : option string)
    (offset : Z) (limit : pyval) : io returned :=
  root <- dispatch_request ctx (SearchReadResult tan offset limit) ;;
  ret (items_returned ctx
         (xpath_root2 "vcc:SearchResultResponse" "vco:ItemDetail" root)).

(** [CreateOrder.execute] *)
Definition CreateOrder_execute (ctx : Context) (lines : list Element) : io returned :=
  root <- dispatch_request ctx (CreateOrder lines) ;;
  ret (ROrder {| order_data := root; order_ctx := ctx |}).

(** [UpdateOrder.execute], [ViewOrder.execute], [FinishOrder.execute] *)
Definition UpdateOrder_execute (ctx : Context) (tan : option string)
    (lines : list Element) : io Element :=
  dispatch_request ctx (UpdateOrder tan lines).
Definition ViewOrder_execute (ctx : Context) (tan : option string) : io Element :=
  dispatch_request ctx (ViewOrder tan).
Definition FinishOrder_execute (ctx : Context) (tan : option string) : io Element :=
  dispatch_request ctx (FinishOrder tan).

(** ** Transactions and the product class *)

(** [TransactionMixin.rollback] on an entity that wraps [data]. *)
Definition rollback (ctx : Context) (data : Element) : io unit :=
  fun sent =>
    match Rollback_execute ctx (field_tan X data) sent with
    | (Ok _, sent') => (Ok tt, sent')
    | (Raise e, sent') =>
        match e with
        | VeloConnectException _ _ =>
            if bool_decide (code e <> Some ERR_NOT_SUPPORTED)
            then (Raise e, sent') else (Ok tt, sent')
        | _ => (Raise e, sent')
        end
    end.

(** What [Product.search] and [Product.search_read] return. *)
Inductive search_returned : Type :=
| SCount (n : option Z)
| SEmpty
| SIds (l : list (option string))
| SItems (r : returned).

Definition count_val (n : option Z) : pyval :=
  match n with
  | Some z => PInt z
  | None => PNone
  end.

(** [limit = ctsresp.count] under [if limit <= 0] *)
Definition effective_limit (limit : Z) (total : option Z) : pyval :=
  if bool_decide (limit <= 0) then count_val total else PInt limit.

(** [Product.search] *)
Definition search (ctx : Context) (keywords : option string)
    (offset limit : Z) (count : bool) : io search_returned :=
  ctsresp <- CreateTextSearch_execute ctx keywords ;;
  let total := field_count X (response_data ctsresp) in
  if count then ret (SCount total)
  else if bool_decide (total = Some 0) then ret SEmpty
  else
    ids <- SearchResult_execute ctx (field_tan X (response_data ctsresp))
             offset (effective_limit limit total) ;;
    ret (SIds ids).

(** [Product.search_read] *)
Definition search_read (ctx : Context) (keywords : option string)
    (offset limit : Z) (count : bool) : io search_returned :=
  ctsresp <- CreateTextSearch_execute ctx keywords ;;
  let total := field_count X (response_data ctsresp) in
  if count then ret (SCount total)
  else if bool_decide (total = Some 0) then ret SEmpty
  else
    items <- SearchReadResult_execute ctx (field_tan X (response_data ctsresp))
               offset (effective_limit limit total) ;;
    ret (SItems items).

(** [Product.read] *)
Definition read (ctx : Context) (codes : list string) : io returned :=
  GetItemDetailsList_execute ctx codes.

End Engine.

(** ** Products and orders *)

(** The description of a product is a Python [str]: a sequence of
    characters, here the list of their code points, so that slicing and
    matching count characters, not bytes. *)
Definition is_line_break (c : N) : bool :=
  bool_decide (c = 10%N) || bool_decide (c = 13%N).

(** The characters of [&nbsp;], of one space and of ['...']. *)
Definition nbsp : list N := [38; 110; 98; 115; 112; 59]%N.
Definition space : N := 32%N.
Definition dots : list N := [46; 46; 46]%N.

(** The substitution [_name_exp.sub(' ', s)] for the pattern
    [[\n\r]|&nbsp;]: scanning from the left, a line break or the six
    characters [&nbsp;] become one space, any other character is kept.
    [skip] counts the characters of a match still to be dropped. *)
Fixpoint name_sub (skip : nat) (s : list N) : list N :=
  match s with
  | [] => []
  | c :: s' =>
      match skip with
      | S k => name_sub k s'
      | O =>
          if is_line_break c then space :: name_sub 0 s'
          else if bool_decide (take 6 (c :: s') = nbsp) then space :: name_sub 5 s'
          else c :: name_sub 0 s'
      end
  end.

(** [Product.name], on the value of the description field:
    [self._name_exp.sub(' ', self.description[:100] + '...')]. *)
Definition name (description : option (list N)) : option (list N) :=
  match description with
  | None => None
  | Some d => Some (name_sub 0 (take 100 d ++ dots))
  end.

(** The nodes that the path of [Product.ean13] selects under the node a
    product wraps. *)
Definition ean13_nodes (data : Element) : list Element :=
  filter (fun e => attr_get "identificationSchemeID" (attrib e) = Some "EAN/UCC-13")
    (flat_map (step "cac:ID")
       (flat_map (step "cac:StandardItemIdentification") (step "cac:Item" data))).

(** [Product.ean13]: [len(ean13) and ean13[0].text or None] *)
Definition ean13 (data : Element) : option string :=
  match ean13_nodes data with
  | [] => None
  | e :: _ => if truthy (text e) then text e else None
  end.

(** [Order._build_lines], on lines given as the product's code, the
    product's unit code and the quantity; the two product fields are
    taken as present. *)
Definition _build_lines (lines : list (string * string * pyval)) : list Element :=
  map (fun l =>
         EN "vco:OrderRequestLine"
           [EN "cac:SellersItemIdentification" [E "cac:ID" l.1.1];
            Elem "cbc:Quantity" [("quantityUnitCode", l.1.2)]
              (Some (py_str l.2)) []])
      lines.

(** [Order.create] *)
Definition create (X : Externals) (ctx : Context)
    (lines : list (string * string * pyval)) : io returned :=
  CreateOrder_execute X ctx (_build_lines lines).

(** [Order._load], [Order.add_lines] and [Order.finish]: the order after
    the call; its data is replaced when the operation returns. *)
Definition _load (X : Externals) (o : Order) (tan : option string) : io Order :=
  root <- ViewOrder_execute X (order_ctx o) tan ;;
  ret {| order_data := root; order_ctx := order_ctx o |}.

Definition add_lines (X : Externals) (o : Order)
    (lines : list (string * string * pyval)) : io Order :=
  root <- UpdateOrder_execute X (order_ctx o) (field_tan X (order_data o))
            (_build_lines lines) ;;
  ret {| order_data := root; order_ctx := order_ctx o |}.

Definition finish (X : Externals) (o : Order) : io Order :=
  root <- FinishOrder_execute X (order_ctx o) (field_tan X (order_data o)) ;;
  ret {| order_data := root; order_ctx := order_ctx o |}.

(** A session built like [ctx] but for the [use_objects] argument. *)
Definition with_use_objects (ctx : Context) (b : bool) : Context :=
  {| _url := _url ctx; _userid := _userid ctx; _passwd := _passwd ctx;
     _istest := _istest ctx; _use_objects := b; _params := _params ctx;
     MAX_FETCH_TRIES := MAX_FETCH_TRIES ctx |}.

(** ** Vocabulary of the statements *)

(** *** Profile entries *)

(** The key under which an [Implements] entry is filed, the binding text
    it names, and the URI it stands for. *)
Definition entry_key (impl : Element) : option (option string) :=
  text <$> op_of impl.
Definition entry_binding (impl : Element) : option (option string) :=
  text <$> find "vcp:Binding" impl.
Definition entry_uri (url : string) (impl : Element) : string :=
  uri_text_of url (find "vcp:URI" impl).

(** An entry on which the loop body does not raise. *)
Definition well_formed_entry (impl : Element) : Prop :=
  is_Some (entry_binding impl) /\ is_Some (entry_key impl).

Inductive transport : Type := XML_BODY | URL_ENCODED.

(** The transport an entry offers, and the transport that
    [dispatch_request] selects for a binding stored in the table. *)
Definition offers_xml (impl : Element) : bool :=
  match entry_binding impl with
  | Some b => is_xml_post b
  | None => false
  end.
Definition offered (impl : Element) : transport :=
  if offers_xml impl then XML_BODY else URL_ENCODED.
Definition selected (binding : option string) : transport :=
  if bool_decide (binding = Some "XML-POST") then XML_BODY else URL_ENCODED.

Definition names_op (k : option string) (impl : Element) : bool :=
  bool_decide (entry_key impl = Some k).

(** The entries of a document for one operation name. *)
Definition entries_of (k : option string) (doc : list Element) : list Element :=
  filter (fun impl => names_op k impl = true) doc.

(** The first entry for [k], as the binding text and URI it would store. *)
Definition first_entry (url : string) (k : option string) (doc : list Element)
  : option (option string * string) :=
  (fun impl => (default None (entry_binding impl), entry_uri url impl))
    <$> head (entries_of k doc).

(** The URI of the last XML-POST entry for [k]. *)
Definition last_xml_uri (url : string) (k : option string) (doc : list Element)
  : option string :=
  entry_uri url
    <$> last (filter (fun impl => offers_xml impl = true) (entries_of k doc)).

(** The precedence rule in the words of the specification: XML-BODY when
    both transports are offered for a name, the first entry seen (its
    transport and its URI) in every other case. *)
Definition both_offered (k : option string) (doc : list Element) : bool :=
  existsb offers_xml (entries_of k doc)
  && existsb (fun impl => negb (offers_xml impl)) (entries_of k doc).

Definition first_seen (url : string) (k : option string) (doc : list Element)
  : option (transport * string) :=
  (fun impl => (offered impl, entry_uri url impl)) <$> head (entries_of k doc).

Definition resolved (t : BindingTable) (k : option string)
  : option (transport * string) :=
  (fun p => (selected p.1, p.2)) <$> t !! k.

Definition precedence_as_stated (url : string) (doc : list Element)
    (t : BindingTable) : Prop :=
  forall k,
    if both_offered k doc
    then exists uri, resolved t k = Some (XML_BODY, uri)
    else resolved t k = first_seen url k doc.

(** *** Requests on the wire *)

(** The request that one pass of the loop sends for an operation under a
    binding, when the rendering does not raise. *)
Definition rendered (X : Externals) (ctx : Context) (binding : option string)
    (uri : string) (request : Operation) : result HttpRequest :=
  if bool_decide (binding = Some "XML-POST") then
    rbind (get_xml ctx request) (fun xml =>
      Ok (HttpPost uri (xml_declaration +:+ etree_tostring X xml) XML_POST_HEADER))
  else
    rbind (get_url_args request) (fun args =>
      Ok (HttpGet uri (args ++ [("BuyersID", PStr (_userid ctx));
                                ("Password", PStr (_passwd ctx));
                                ("IsTest", PBool (_istest ctx))]))).

(** Attempt [i] (counted from 0) of a dispatch that starts after the
    requests [sent] and sends [r] each time: the partner answers with a
    body that is not well-formed XML, or with a body that parses to
    [root]. *)
Definition malformed_at (X : Externals) (sent : list HttpRequest)
    (r : HttpRequest) (i : nat) : Prop :=
  exists body,
    http_send X (sent ++ replicate i r) r = Some body
    /\ utf8_decodable X body = true
    /\ etree_fromstring X body = None.

Definition well_formed_at (X : Externals) (sent : list HttpRequest)
    (r : HttpRequest) (i : nat) (root : Element) : Prop :=
  exists body,
    http_send X (sent ++ replicate i r) r = Some body
    /\ utf8_decodable X body = true
    /\ etree_fromstring X body = Some root.

(** *** Credentials in a rendered request *)

(** The three parameters that [query_get] appends. *)
Definition implicit_params (ctx : Context) : list (string * pyval) :=
  [("BuyersID", PStr (_userid ctx));
   ("Password", PStr (_passwd ctx));
   ("IsTest", PBool (_istest ctx))].

(** A request document carries the test-mode flag when one of its
    children is an [IsTest] element. *)
Definition carries_istest (x : Element) : bool :=
  existsb (fun c => bool_decide (tag c = "vct:IsTest")) (children x).

(** It carries the buyer identifier and the password credential when its
    children start with the two elements of [_xml_auth]. *)
Definition carries_auth (ctx : Context) (x : Element) : Prop :=
  exists rest, children x = _xml_auth ctx ++ rest.

Definition is_order_op (op : Operation) : bool :=
  match op with
  | CreateOrder _ | UpdateOrder _ _ | ViewOrder _ | FinishOrder _ => true
  | _ => false
  end.

(** The claim on XML documents in the words of the specification: every
    rendered document carries all three. *)
Definition xml_credentials_as_stated (ctx : Context) (op : Operation) : Prop :=
  forall x, get_xml ctx op = Ok x ->
            carries_auth ctx x /\ carries_istest x = true.

(** *** The search-result request *)

(** The [SearchResultRequest] with a given [Count] and result format, as
    it goes on the wire under a binding: the parameter list of the GET,
    or the document of the POST (which needs a transaction identifier). *)
Definition result_request (X : Externals) (ctx : Context)
    (binding : option string) (uri : string) (tan : option string)
    (offset : Z) (count : pyval) (format : string) : result HttpRequest :=
  if bool_decide (binding = Some "XML-POST") then
    match tan with
    | Some t =>
        Ok (HttpPost uri
              (xml_declaration
               +:+ etree_tostring X
                     (EN "vcc:SearchResultRequest"
                        [E "vct:BuyersID" (_userid ctx);
                         EN "vct:Credential" [E "vct:Password" (_passwd ctx)];
                         E "vct:TransactionID" t;
                         E "vcc:StartIndex" (pretty offset);
                         E "vcc:Count" (py_str count);
                         E "vcc:ResultFormat" format]))
              XML_POST_HEADER)
    | None => Raise TypeError
    end
  else
    Ok (HttpGet uri
          [("RequestName", PStr "SearchResultRequest");
           ("TransactionID", opt_val tan);
           ("StartIndex", PInt offset);
           ("Count", count);
           ("ResultFormat", PStr format);
           ("BuyersID", PStr (_userid ctx));
           ("Password", PStr (_passwd ctx));
           ("IsTest", PBool (_istest ctx))]).

(** *** Discovery *)

(** The capability-discovery request of a session. *)
Definition discovery_request (ctx : Context) : HttpRequest :=
  HttpGet (_url ctx)
    [("RequestName", PStr "GetProfileRequest");
     ("BuyersID", PStr (_userid ctx));
     ("Password", PStr (_passwd ctx));
     ("IsTest", PBool (_istest ctx))].

(** A caller that asks the session for one class after another, whatever
    each call returns: the session and the requests issued at the end. *)
Fixpoint gets (X : Externals) (ctx : Context) (names : list string)
    (sent : list HttpRequest) : Context * list HttpRequest :=
  match names with
  | [] => (ctx, sent)
  | n :: rest =>
      match get X ctx n sent with
      | ((_, ctx'), sent') => gets X ctx' rest sent'
      end
  end.

(** *** A discovery answered with an error *)

(** The partner answers the discovery request with a well-formed
    envelope whose response code is not 200. *)
Definition non_success_answer (X : Externals) (ctx : Context)
    (sent : list HttpRequest) : Prop :=
  exists body root c,
    http_send X sent (discovery_request ctx) = Some body
    /\ etree_fromstring X body = Some root
    /\ response_code X root = Ok c
    /\ c <> ERR_NONE.

(** The failure clause in the words of the specification, for which a
    non-success response code is a failure of the discovery: the call
    raises and the session stays unresolved. *)
Definition failed_discovery_as_stated (X : Externals) (ctx : Context)
    (sent : list HttpRequest) : Prop :=
  _params ctx = None ->
  non_success_answer X ctx sent ->
  exists e,
    _load_params X ctx sent = ((Raise e, ctx), sent ++ [discovery_request ctx]).

(** *** Raw mode and replacements *)

(** The raw-mode switch in the words of the specification: on a session
    built with the raw-node flag, each of the four operations returns raw
    nodes. *)
Definition raw_mode_as_stated (X : Externals) (ctx : Context) : Prop :=
  _use_objects ctx = false ->
  forall sent v s,
    ((exists c, GetItemDetails_execute X ctx c sent = (Ok v, s))
     \/ (exists codes, GetItemDetailsList_execute X ctx codes sent = (Ok v, s))
     \/ (exists tan offset limit,
           SearchReadResult_execute X ctx tan offset limit sent = (Ok v, s))
     \/ (exists lines, CreateOrder_execute X ctx lines sent = (Ok v, s))) ->
    is_raw v = true.

(** A node whose product has its replacement field set. *)
Definition replaced (X : Externals) (item : Element) : bool :=
  truthy (field_replacement X item).

(** The products of the nodes that have no replacement, in order. *)
Definition kept (X : Externals) (items : list Element) : list Product :=
  Build_Product <$> filter (fun item => replaced X item = false) items.

(** *** Attempts that end a dispatch *)

(** Attempt [i] of a dispatch raises in the transport, or brings a body
    that does not decode as UTF-8. *)
Definition transport_fails_at (X : Externals) (sent : list HttpRequest)
    (r : HttpRequest) (i : nat) : Prop :=
  http_send X (sent ++ replicate i r) r = None.

Definition undecodable_at (X : Externals) (sent : list HttpRequest)
    (r : HttpRequest) (i : nat) : Prop :=
  exists body,
    http_send X (sent ++ replicate i r) r = Some body
    /\ utf8_decodable X body = false.

(** A request to fill the place of one when none is issued. *)
Definition no_request : HttpRequest := HttpGet "" [].

(** *** Responses that list identifiers *)

(** A search-result response that lists identifiers, each under an
    identification wrapped by [wrap]. *)
Definition id_response (t code : string) (wrap : Element -> Element)
    (ids : list string) : Element :=
  EN t (E "vct:ResponseCode" code
        :: map (fun id => wrap (EN "cac:SellersItemIdentification" [E "cac:ID" id]))
             ids).

Definition in_item_detail (e : Element) : Element := EN "vco:ItemDetail" [e].

(** *** Order lines *)

(** The URL parameters of one order line. *)
Definition line_params (l : string * string * pyval) : list (string * pyval) :=
  [("Quantity." +:+ l.1.1, PStr (py_str l.2));
   ("quantityUnitCode." +:+ l.1.1, PStr l.1.2)].

(** *** Descriptions *)

(** A character that the pattern of [Product.name] never starts a match
    on: no line break and no ampersand. *)
Definition plain_char (c : N) : bool :=
  negb (is_line_break c) && negb (bool_decide (c = 38%N)).

Definition plain (s : list N) : bool := forallb plain_char s.

Definition no_line_break (s : list N) : bool :=
  forallb (fun c => negb (is_line_break c)) s.

(** The code points of a string of ASCII characters. *)
Definition chars (s : string) : list N :=
  map N_of_ascii (String.list_ascii_of_string s).

(** *** Entries without an address *)

(** An entry that gives no URI, or an empty one. *)
Definition no_uri (impl : Element) : bool :=
  match find "vcp:URI" impl with
  | Some u => negb (truthy (text u))
  | None => true
  end.

(** *** Identifications of a product *)

(** A standard item identification with one [cac:ID] of a scheme, and a
    product node whose item lists such identifications in order. *)
Definition scheme_id (p : string * option string) : Element :=
  Elem "cac:ID" [("identificationSchemeID", p.1)] p.2 [].

Definition identification (p : string * option string) : Element :=
  EN "cac:StandardItemIdentification" [scheme_id p].

Definition item_with_ids (t : string) (ids : list (string * option string))
  : Element :=
  EN t [EN "cac:Item" (map identification ids)].

(** *** Sample documents *)

Module Sample.

(** An [Implements] entry of a profile. *)
Definition implements (op binding uri : string) : Element :=
  EN "vcp:Implements"
    [E "vcp:Operation" op; E "vcp:Binding" binding; E "vcp:URI" uri].

(** A profile that lists the order operation twice, both times as
    XML-POST, under two addresses. *)
Definition two_posts : list Element :=
  [implements "Order" "XML-POST" "https://a.example/vc";
   implements "Order" "XML-POST" "https://b.example/vc"].

(** A profile that offers the search under both transports, URL first. *)
Definition url_then_post : list Element :=
  [implements "TextSearch" "URL" "https://a.example/get";
   implements "TextSearch" "XML-POST-S" "https://a.example/post"].

(** A response envelope: the response code first, then the payload. *)
Definition envelope (t code : string) (payload : list Element) : Element :=
  EN t (E "vct:ResponseCode" code :: payload).

(** [int] on a string of ASCII digits. *)
Definition digit (c : ascii) : option Z :=
  let n := Z.of_nat (nat_of_ascii c) in
  if bool_decide (48 <= n <= 57) then Some (n - 48) else None.

Fixpoint digits (acc : Z) (s : string) : option Z :=
  match s with
  | EmptyString => Some acc
  | String c s' =>
      match digit c with
      | Some d => digits (10 * acc + d) s'
      | None => None
      end
  end.

Definition decimal (s : string) : option Z :=
  match s with
  | EmptyString => None
  | _ => digits 0 s
  end.

(** A partner that answers the i-th request of the session with the i-th
    body of a script, and a parser that knows the documents of a table
    and rejects every other body. *)
Definition scripted (script : list string) (sent : list HttpRequest)
    (_ : HttpRequest) : option string :=
  script !! length sent.

Fixpoint parse (docs : list (string * Element)) (body : string) : option Element :=
  match docs with
  | [] => None
  | (b, e) :: docs' => if bool_decide (b = body) then Some e else parse docs' body
  end.

(** The text of the node a path leads to, when there is one. *)
Definition text_at (o : option Element) : option string :=
  match o with
  | Some e => text e
  | None => None
  end.

Definition partner (script : list string) (docs : list (string * Element))
  : Externals :=
  {| http_send := scripted script;
     etree_fromstring := parse docs;
     etree_tostring := tag;
     py_int := decimal;
     utf8_decodable := fun _ => true;
     field_tan := fun e => text_at (find "vct:TransactionID" e);
     field_count := fun e =>
       match text_at (find "vcc:TotalCount" e) with
       | Some s => decimal s
       | None => None
       end;
     field_replacement := fun e =>
       match find "vco:RequestReplacement" e with
       | Some x => text_at (find2 "cac:ItemReplacement" "cac:ID" x)
       | None => None
       end |}.

(** A resolved session. *)
Definition table : BindingTable :=
  list_to_map [
    (Some "Rollback", (Some "URL", "https://p.example/get"));
    (Some "TextSearch", (Some "URL", "https://p.example/get"));
    (Some "GetItemDetails", (Some "URL", "https://p.example/get"));
    (Some "GetItemDetailsList", (Some "URL", "https://p.example/get"));
    (Some "Order", (Some "XML-POST", "https://p.example/post"))
  ].

Definition session (use_objects : bool) (tries : Z) : Context :=
  {| _url := "https://p.example/vc"; _userid := "buyer"; _passwd := "secret";
     _istest := false; _use_objects := use_objects; _params := Some table;
     MAX_FETCH_TRIES := tries |}.

(** The documents the sample partner sends. *)
Definition ok_rollback : Element := envelope "vct:RollbackResponse" "200" [].
Definition not_supported : Element := envelope "vct:RollbackResponse" "404" [].
Definition internal_error : Element := envelope "vct:RollbackResponse" "500" [].
Definition unlisted_code : Element := envelope "vct:RollbackResponse" "999" [].

Definition documents : list (string * Element) :=
  [("ok", ok_rollback); ("404", not_supported); ("500", internal_error);
   ("999", unlisted_code)].

(** A search that finds 17 items, and a page of results. *)
Definition found_17 : Element :=
  envelope "vcc:CreateTextSearchResponse" "200"
    [E "vct:TransactionID" "T7"; E "vcc:TotalCount" "17"].

Definition item (id : string) : Element :=
  EN "vco:ItemDetail" [EN "cac:SellersItemIdentification" [E "cac:ID" id]].

Definition replaced_item (id by_id : string) : Element :=
  EN "vco:ItemDetail"
    [EN "vco:RequestReplacement"
       [EN "cac:SellersItemIdentification" [E "cac:ID" id];
        EN "cac:ItemReplacement" [E "cac:ID" by_id]]].

Definition page : Element :=
  EN "vcc:SearchResultResponse"
    [E "vct:ResponseCode" "200"; item "A1"; replaced_item "A2" "A9"; item "A3"].

Definition catalog : list (string * Element) :=
  [("found", found_17); ("page", page)].

(** A profile document, and a session that has not resolved yet. *)
Definition profile : Element :=
  EN "vcp:GetProfileResponse" [EN "vcp:VeloconnectProfile" url_then_post].

Definition profiles : list (string * Element) := [("profile", profile)].

Definition fresh : Context :=
  Context_init "https://p.example/vc" "buyer" "secret" false true.

(** The answer to an order creation. *)
Definition order_created : Element :=
  envelope "vco:OrderResponse" "200" [E "vct:TransactionID" "T9"].

Definition orders : list (string * Element) := [("created", order_created)].

(** Bodies that parse to an envelope without a response code, and to one
    with two. *)
Definition no_code : Element := EN "vco:OrderResponse" [].
Definition two_codes : Element :=
  EN "vco:OrderResponse" [E "vct:ResponseCode" "200"; E "vct:ResponseCode" "500"].

Definition oddities : list (string * Element) :=
  [("nocode", no_code); ("twocodes", two_codes)].

(** A partner like [partner] whose bodies never decode as UTF-8. *)
Definition latin1_partner (script : list string) (docs : list (string * Element))
  : Externals :=
  {| http_send := scripted script;
     etree_fromstring := parse docs;
     etree_tostring := tag;
     py_int := decimal;
     utf8_decodable := fun _ => false;
     field_tan := fun e => text_at (find "vct:TransactionID" e);
     field_count := fun _ => None;
     field_replacement := fun _ => None |}.

(** A session whose partner offers the order operation by GET only. *)
Definition url_only_table : BindingTable :=
  list_to_map [(Some "Order", (Some "URL", "https://p.example/get"))].

Definition url_only_session : Context :=
  {| _url := "https://p.example/vc"; _userid := "buyer"; _passwd := "secret";
     _istest := false; _use_objects := true; _params := Some url_only_table;
     MAX_FETCH_TRIES := 3 |}.

(** A page of identifiers, each inside an item detail. *)
Definition id_page : Element :=
  id_response "vcc:SearchResultResponse" "200" in_item_detail ["A1"; "A2"].

Definition id_pages : list (string * Element) := [("ids", id_page)].

(** A product node with two EAN identifications, the first one empty,
    after an identification of another scheme. *)
Definition ean_id (scheme : string) (value : option string) : Element :=
  Elem "cac:ID" [("identificationSchemeID", scheme)] value [].

Definition product_with_eans : Element :=
  EN "vco:ItemDetail"
    [EN "cac:Item"
       [EN "cac:StandardItemIdentification" [ean_id "GTIN-14" (Some "04012345678901")];
        EN "cac:StandardItemIdentification" [ean_id "EAN/UCC-13" None];
        EN "cac:StandardItemIdentification" [ean_id "EAN/UCC-13" (Some "4012345678901")]]].

(** A profile whose entries give no address. *)
Definition bare_profile : list Element :=
  [EN "vcp:Implements" [E "vcp:Transaction" "Order"; E "vcp:Binding" "XML-POST"];
   EN "vcp:Implements" [E "vcp:Operation" "GetItemDetails"; E "vcp:Binding" "URL";
                        EN "vcp:URI" []]].

(** A profile whose last entry names no operation. *)
Definition incomplete_profile : list Element :=
  url_then_post ++ [EN "vcp:Implements" [E "vcp:Binding" "URL"]].

(** A profile answer that refuses the buyer: code 410 and no entry. *)
Definition refused_profile : Element :=
  envelope "vcp:GetProfileResponse" "410" [].

Definition refusals : list (string * Element) := [("refused", refused_profile)].

(** A body that is not well-formed XML and not UTF-8: the bytes of
    [<broken] followed by the single byte 0xE9. *)
Definition broken_latin1 : string :=
  "<broken" +:+ String (ascii_of_nat 233) EmptyString.

End Sample.

(** * Binding precedence *)

Lemma entries_of_cons k impl doc :
  entries_of k (impl :: doc)
  = if names_op k impl then impl :: entries_of k doc else entries_of k doc.
Proof.
  unfold entries_of. rewrite filter_cons.
  destruct (names_op k impl); case_decide; congruence.
Qed.

Lemma last_xml_uri_cons url k impl doc :
  last_xml_uri url k (impl :: doc)
  = match last_xml_uri url k doc with
    | Some u => Some u
    | None => if names_op k impl && offers_xml impl
              then Some (entry_uri url impl) else None
    end.
Proof.
  unfold last_xml_uri. rewrite entries_of_cons.
  destruct (names_op k impl); simpl; [|by destruct (last _)].
  rewrite filter_cons. destruct (offers_xml impl); case_decide; try congruence.
  - rewrite last_cons. by destruct (last _).
  - by destruct (last _).
Qed.

Lemma first_entry_cons url k impl doc :
  first_entry url k (impl :: doc)
  = if names_op k impl
    then Some (default None (entry_binding impl), entry_uri url impl)
    else first_entry url k doc.
Proof.
  unfold first_entry. rewrite entries_of_cons. by destruct (names_op k impl).
Qed.

(** The table that the loop builds from any starting table. *)
Lemma build_bindings_lookup url doc : forall acc t k,
  build_bindings url doc acc = Ok t ->
  t !! k = match last_xml_uri url k doc with
           | Some u => Some (Some "XML-POST", u)
           | None => match acc !! k with
                     | Some v => Some v
                     | None => first_entry url k doc
                     end
           end.
Proof.
  induction doc as [|impl doc IH]; intros acc t k Hb.
  - simpl in Hb. injection Hb as <-. cbn. by destruct (acc !! k).
  - rewrite last_xml_uri_cons, first_entry_cons.
    unfold names_op, offers_xml, entry_binding, entry_key, entry_uri.
    simpl in Hb.
    destruct (find "vcp:Binding" impl) as [b|]; [|discriminate]. simpl.
    destruct (op_of impl) as [o|]; simpl.
    2:{ destruct (is_xml_post (text b)); discriminate. }
    destruct (is_xml_post (text b)) eqn:Hx.
    + rewrite (IH _ _ k Hb).
      destruct (last_xml_uri url k doc); [done|].
      case_bool_decide as Hk; simpl.
      * injection Hk as <-. by rewrite lookup_insert_eq.
      * rewrite lookup_insert_ne by congruence. done.
    + rewrite andb_false_r.
      destruct (acc !! text o) eqn:Ho; rewrite (IH _ _ k Hb);
        (destruct (last_xml_uri url k doc); [done|]); case_bool_decide as Hk.
      * injection Hk as <-. by rewrite Ho.
      * done.
      * injection Hk as <-. by rewrite lookup_insert_eq, Ho.
      * rewrite lookup_insert_ne by congruence. done.
Qed.

(** On a document whose entries are all well formed the loop does not
    raise. *)
Lemma build_bindings_total url doc : forall acc,
  Forall well_formed_entry doc -> exists t, build_bindings url doc acc = Ok t.
Proof.
  induction doc as [|impl doc IH]; intros acc Hwf; [by eexists|].
  apply Forall_cons in Hwf as [[[b Hb] [o Ho]] Hwf]. simpl.
  unfold entry_binding, entry_key in Hb, Ho.
  destruct (find "vcp:Binding" impl); [|discriminate].
  destruct (op_of impl); [|discriminate].
  destruct (is_xml_post _); [by apply IH|].
  destruct (acc !! _); by apply IH.
Qed.

Lemma offered_xml_last url k doc :
  existsb offers_xml (entries_of k doc) = true ->
  is_Some (last_xml_uri url k doc).
Proof.
  intros H. apply existsb_exists in H as (impl & Hin & Hx).
  unfold last_xml_uri.
  destruct (last _) as [x|] eqn:Hl; [by eexists|].
  apply last_None in Hl.
  assert (impl ∈ filter (fun impl => offers_xml impl = true) (entries_of k doc)) as Hm
    by (apply list_elem_of_filter; split; [done|by apply list_elem_of_In]).
  rewrite Hl in Hm. by apply not_elem_of_nil in Hm.
Qed.

(** C1, as the code has it: a profile whose entries all name a binding and
    an operation resolves to a table; a name for which an XML-POST (or
    XML-POST-S) entry exists is mapped to XML-POST, wherever that entry
    stands in the document, with the URI of the last such entry; a name
    with no such entry is mapped to the binding and URI of its first
    entry; a name with no entry is not in the table. *)
Theorem binding_table_precedence (url : string) (doc : list Element) :
  Forall well_formed_entry doc ->
  exists t,
    build_bindings url doc ∅ = Ok t
    /\ (forall k, t !! k = match last_xml_uri url k doc with
                          | Some u => Some (Some "XML-POST", u)
                          | None => first_entry url k doc
                          end)
    /\ (forall k, existsb offers_xml (entries_of k doc) = true ->
                  exists uri, resolved t k = Some (XML_BODY, uri)).
Proof.
  intros Hwf.
  destruct (build_bindings_total url doc ∅ Hwf) as [t Ht].
  exists t. split; [done|].
  assert (forall k, t !! k = match last_xml_uri url k doc with
                             | Some u => Some (Some "XML-POST", u)
                             | None => first_entry url k doc
                             end) as Hl.
  { intros k. rewrite (build_bindings_lookup _ _ _ _ k Ht).
    by rewrite lookup_empty. }
  split; [done|].
  intros k Hx. destruct (offered_xml_last url k doc Hx) as [u Hu].
  exists u. unfold resolved. by rewrite Hl, Hu.
Qed.

Lemma binding_table_precedence_witness :
  Forall well_formed_entry Sample.url_then_post
  /\ exists t,
       build_bindings "https://a.example/vc" Sample.url_then_post ∅ = Ok t
       /\ (forall k, t !! k
                     = match last_xml_uri "https://a.example/vc" k
                               Sample.url_then_post with
                       | Some u => Some (Some "XML-POST", u)
                       | None => first_entry "https://a.example/vc" k
                                   Sample.url_then_post
                       end)
       /\ (forall k, existsb offers_xml (entries_of k Sample.url_then_post) = true ->
                     exists uri, resolved t k = Some (XML_BODY, uri)).
Proof.
  assert (Forall well_formed_entry Sample.url_then_post) as Hwf.
  { repeat constructor; eexists; reflexivity. }
  split; [exact Hwf|].
  exact (binding_table_precedence "https://a.example/vc" Sample.url_then_post Hwf).
Defined.

(** C1 as stated fails: with two XML-POST entries for one name and no
    URL entry, the table holds the URI of the second entry, not of the
    first one seen. *)
Lemma precedence_as_stated_fails :
  exists t,
    build_bindings "https://partner.example/vc" Sample.two_posts ∅ = Ok t
    /\ t !! Some "Order" = Some (Some "XML-POST", "https://b.example/vc")
    /\ first_seen "https://partner.example/vc" (Some "Order") Sample.two_posts
       = Some (XML_BODY, "https://a.example/vc")
    /\ ~ precedence_as_stated "https://partner.example/vc" Sample.two_posts t.
Proof.
  eexists. split; [reflexivity|]. split; [reflexivity|]. split; [reflexivity|].
  intros H. specialize (H (Some "Order")). vm_compute in H. discriminate.
Qed.

(** * Dispatch: retries and response codes *)

Lemma fetch_sends (X : Externals) (ctx : Context) (params : BindingTable)
    (request : Operation) binding uri r body sent :
  params !! Some (_name request) = Some (binding, uri) ->
  rendered X ctx binding uri request = Ok r ->
  http_send X sent r = Some body ->
  utf8_decodable X body = true ->
  fetch X ctx params request sent = (Ok body, sent ++ [r]).
Proof.
  intros Hp Hr Hs Hu. unfold fetch, rendered in *. rewrite Hp.
  unfold bind, lift, query_post, query_get, http.
  case_bool_decide.
  - destruct (get_xml ctx request); [|discriminate].
    injection Hr as <-. by rewrite Hs, Hu.
  - destruct (get_url_args request); [|discriminate].
    injection Hr as <-. by rewrite Hs, Hu.
Qed.

Lemma replicate_step {A} (l : list A) (x : A) (i : nat) :
  (l ++ [x]) ++ replicate i x = l ++ replicate (S i) x.
Proof. by rewrite <- app_assoc. Qed.

Section Retry.

Variable X : Externals.
Variables (ctx : Context) (params : BindingTable) (request : Operation).
Variables (binding : option string) (uri : string) (r : HttpRequest).
Hypothesis Hparams : params !! Some (_name request) = Some (binding, uri).
Hypothesis Hrendered : rendered X ctx binding uri request = Ok r.

(** [k] malformed bodies and then a well-formed one: the loop stops at
    attempt [k + 1] with [ntry] advanced by [k]. *)
Lemma fetch_loop_breaks : forall k n ntry sent root,
  (k < n)%nat ->
  (forall i, (i < k)%nat -> malformed_at X sent r i) ->
  well_formed_at X sent r k root ->
  fetch_loop X ctx params request n ntry sent
  = (Ok (ntry + Z.of_nat k, Some root), sent ++ replicate (S k) r).
Proof.
  induction k as [|k IH]; intros n ntry sent root Hk Hbad Hgood;
    (destruct n as [|n]; [lia|]); cbn [fetch_loop]; unfold bind.
  - destruct Hgood as (body & Hs & Hu & Hx). rewrite app_nil_r in Hs.
    rewrite (fetch_sends _ _ _ _ _ _ _ _ _ Hparams Hrendered Hs Hu), Hx.
    unfold ret. by rewrite Z.add_0_r.
  - destruct (Hbad 0%nat ltac:(lia)) as (body & Hs & Hu & Hx).
    rewrite app_nil_r in Hs.
    rewrite (fetch_sends _ _ _ _ _ _ _ _ _ Hparams Hrendered Hs Hu), Hx.
    rewrite (IH n (ntry + 1) (sent ++ [r]) root); [|lia| |].
    + rewrite replicate_step. do 3 f_equal. lia.
    + intros i Hi. destruct (Hbad (S i) ltac:(lia)) as (b & ? & ? & ?).
      exists b. by rewrite replicate_step.
    + destruct Hgood as (b & ? & ? & ?). exists b. by rewrite replicate_step.
Qed.


End Retry.

(** What the response-code step makes of a code. *)
Lemma check_response_code (X : Externals) (root : Element) (c : Z) :
  response_code X root = Ok c ->
  check_response X root
  = if bool_decide (c = ERR_NONE) then Ok root
    else Raise (raise_VeloConnectException c).
Proof.
  intros H. unfold check_response. rewrite H. simpl.
  repeat case_bool_decide; done.
Qed.



(** C2 at a malformed body that is not UTF-8: with a budget of 3, the
    partner answers every attempt with the bytes of [<broken] followed by
    the byte 0xE9; the body is not well-formed XML, yet the dispatch ends
    on the first attempt, in the [UnicodeDecodeError] of the log line,
    with one request issued: no retry and no error 514. *)
Theorem malformed_latin1_body_ends_dispatch :
  let X := Sample.latin1_partner
             [Sample.broken_latin1; Sample.broken_latin1; Sample.broken_latin1]
             Sample.documents in
  etree_fromstring X Sample.broken_latin1 = None
  /\ MAX_FETCH_TRIES (Sample.session true 3) = 3
  /\ dispatch_request X (Sample.session true 3) (Rollback (Some "T1")) []
     = (Raise UnicodeDecodeError,
        [HttpGet "https://p.example/get"
           [("RequestName", PStr "RollbackRequest");
            ("TransactionID", PStr "T1");
            ("BuyersID", PStr "buyer"); ("Password", PStr "secret");
            ("IsTest", PBool false)]]).
Proof.
  intros X. split; [reflexivity|]. split; [reflexivity|].
  vm_compute. reflexivity.
Qed.

(** Every pass sends the same request, so the requests of a dispatch are
    copies of it: at most as many as the loop has passes, and at least one
    when it has any. *)
Lemma fetch_log (X : Externals) (ctx : Context) (params : BindingTable)
    (request : Operation) binding uri r sent :
  params !! Some (_name request) = Some (binding, uri) ->
  rendered X ctx binding uri request = Ok r ->
  (fetch X ctx params request sent).2 = sent ++ [r].
Proof.
  intros Hp Hr. unfold fetch, rendered in *. rewrite Hp.
  unfold bind, lift, query_post, query_get, http.
  case_bool_decide.
  - destruct (get_xml ctx request); [|discriminate]. injection Hr as <-.
    destruct (http_send X sent _); [|done]. by destruct (utf8_decodable X _).
  - destruct (get_url_args request); [|discriminate]. injection Hr as <-.
    destruct (http_send X sent _); [|done]. by destruct (utf8_decodable X _).
Qed.

Lemma fetch_loop_log (X : Externals) (ctx : Context) (params : BindingTable)
    (request : Operation) binding uri r :
  params !! Some (_name request) = Some (binding, uri) ->
  rendered X ctx binding uri request = Ok r ->
  forall n ntry sent,
  exists k, (k <= n)%nat /\ (n <> 0%nat -> k <> 0%nat)
            /\ (fetch_loop X ctx params request n ntry sent).2
               = sent ++ replicate k r.
Proof.
  intros Hp Hr. induction n as [|n IH]; intros ntry sent; cbn [fetch_loop].
  - exists 0%nat. simpl. by rewrite app_nil_r.
  - unfold bind. pose proof (fetch_log X ctx params request _ _ _ sent Hp Hr) as Hl.
    destruct (fetch X ctx params request sent) as [[body|e] s]; simpl in Hl; subst s.
    + destruct (etree_fromstring X body).
      * exists 1%nat. repeat split; [lia|lia].
      * destruct (IH (ntry + 1) (sent ++ [r])) as (k & Hk & _ & ->).
        exists (S k). rewrite replicate_step. repeat split; lia.
    + exists 1%nat. repeat split; lia.
Qed.

Lemma dispatch_log (X : Externals) (ctx : Context) (params : BindingTable)
    (request : Operation) binding uri r sent :
  _params ctx = Some params ->
  params !! Some (_name request) = Some (binding, uri) ->
  rendered X ctx binding uri request = Ok r ->
  1 <= MAX_FETCH_TRIES ctx ->
  exists k, (1 <= k <= Z.to_nat (MAX_FETCH_TRIES ctx))%nat
            /\ (dispatch_request X ctx request sent).2 = sent ++ replicate k r.
Proof.
  intros Hctx Hp Hr Hn. unfold dispatch_request. rewrite Hctx, Hp.
  rewrite bool_decide_eq_false_2 by done.
  rewrite bool_decide_eq_false_2 by lia.
  unfold bind.
  destruct (fetch_loop_log X ctx params request _ _ _ Hp Hr
              (Z.to_nat (MAX_FETCH_TRIES ctx)) 0 sent) as (k & Hk & Hk0 & Hl).
  exists k. split; [lia|].
  destruct (fetch_loop _ _ _ _ _ _ _) as [[[ntry root]|e] s]; simpl in *; subst s.
  - case_bool_decide; [done|]. destruct root; [|done].
    unfold lift. done.
  - done.
Qed.

(** A dispatch that returns an envelope ran on a resolved session that
    lists the operation, with a positive budget. *)
Lemma dispatch_ok_inv (X : Externals) (ctx : Context) (request : Operation)
    sent root sent' :
  dispatch_request X ctx request sent = (Ok root, sent') ->
  exists params binding uri,
    _params ctx = Some params
    /\ params !! Some (_name request) = Some (binding, uri)
    /\ 1 <= MAX_FETCH_TRIES ctx.
Proof.
  unfold dispatch_request. destruct (_params ctx) as [params|]; [|discriminate].
  case_bool_decide as Hn; [discriminate|].
  case_bool_decide; [discriminate|]. intros _.
  destruct (params !! Some (_name request)) as [[b u]|] eqn:Hl; [|done].
  exists params, b, u. split; [done|]. split; [done|lia].
Qed.

(** Codes of the catalog raise the typed failure with their message. *)
Lemma check_response_listed (X : Externals) (root : Element) (c : Z) (m : string) :
  response_code X root = Ok c -> c <> ERR_NONE -> ERR_CODES !! c = Some m ->
  check_response X root
  = Raise (VeloConnectException c (m +:+ " (Code: " +:+ pretty c +:+ ")")).
Proof.
  intros H Hc Hm. rewrite (check_response_code _ _ _ H).
  rewrite bool_decide_eq_false_2 by done.
  unfold raise_VeloConnectException. by rewrite Hm.
Qed.

(** Codes outside the catalog raise the lookup error of the constructor. *)
Lemma check_response_unlisted (X : Externals) (root : Element) (c : Z) :
  response_code X root = Ok c -> c <> ERR_NONE -> ERR_CODES !! c = None ->
  check_response X root = Raise (KeyError (PInt c)).
Proof.
  intros H Hc Hm. rewrite (check_response_code _ _ _ H).
  rewrite bool_decide_eq_false_2 by done.
  unfold raise_VeloConnectException. by rewrite Hm.
Qed.

Example unknown_user_410 :
  check_response (Sample.partner [] []) (Sample.envelope "vco:OrderResponse" "410" [])
  = Raise (VeloConnectException 410 "Unknown user. (Code: 410)").
Proof. reflexivity. Qed.

Example success_200 :
  check_response (Sample.partner [] []) Sample.ok_rollback = Ok Sample.ok_rollback.
Proof. reflexivity. Qed.

(** C3 at a code outside the catalog: the partner answers the first
    attempt with a well-formed envelope whose code is 999; the dispatch
    ends in the [KeyError] of the catalog lookup, not in a
    [VeloConnectException]. *)
Theorem unlisted_code_raises_KeyError :
  dispatch_request (Sample.partner ["999"] Sample.documents)
    (Sample.session true 3) (Rollback (Some "T1")) []
  = (Raise (KeyError (PInt 999)),
     [HttpGet "https://p.example/get"
        [("RequestName", PStr "RollbackRequest");
         ("TransactionID", PStr "T1");
         ("BuyersID", PStr "buyer"); ("Password", PStr "secret");
         ("IsTest", PBool false)]]).
Proof. vm_compute. reflexivity. Qed.

(** * Implicit credentials *)

Lemma request_entries_no_istest (codes : list string) :
  existsb (fun c => bool_decide (tag c = "vct:IsTest"))
    (map (fun c => EN "vco:RequestEntry"
                     [EN "cac:SellersItemIdentification" [E "cac:ID" c]]) codes)
  = false.
Proof. induction codes as [|c codes IH]; [done|]. simpl. exact IH. Qed.

(** C4, as the code has it: every GET ends with the parameters BuyersID,
    Password and IsTest; every request document starts with the BuyersID
    and Credential/Password elements; the IsTest element is a child of the
    four order documents (create, update, view, finish) and of no other
    document: rollback, item lookup, batch lookup, search and search-result
    documents carry no IsTest child. *)
Theorem implicit_credentials (X : Externals) (ctx : Context) (op : Operation) :
  (forall uri args sent,
      (query_get X ctx uri args sent).2
      = sent ++ [HttpGet uri (args ++ implicit_params ctx)])
  /\ (forall x,
        get_xml ctx op = Ok x ->
        carries_auth ctx x
        /\ if is_order_op op then _xml_istest ctx ∈ children x
           else carries_istest x = false).
Proof.
  split.
  - intros uri args sent. unfold query_get, http, implicit_params.
    by destruct (http_send X sent _).
  - intros x Hx. unfold carries_auth, carries_istest.
    destruct op as [tan| | |c|codes|kw|tan o l|tan o l|lines|tan lines|tan|tan];
      simpl in Hx; try discriminate;
      try (destruct tan as [t|]; simpl in Hx; [|discriminate]);
      injection Hx as <-; (split; [by eexists|]); simpl;
      try reflexivity; try (repeat constructor; fail).
    + apply request_entries_no_istest.
    + by destruct (truthy kw).
Qed.

Lemma implicit_credentials_witness :
  carries_auth (Sample.session true 3)
    (EN "vco:CreateOrderRequest"
       [E "vct:BuyersID" "buyer"; EN "vct:Credential" [E "vct:Password" "secret"];
        E "vct:IsTest" "0"])
  /\ E "vct:IsTest" "0"
     ∈ [E "vct:BuyersID" "buyer"; EN "vct:Credential" [E "vct:Password" "secret"];
        E "vct:IsTest" "0"].
Proof.
  exact (proj2 (implicit_credentials (Sample.partner [] []) (Sample.session true 3)
                  (CreateOrder [])) _ eq_refl).
Defined.

(** C4 as stated fails: the rollback document carries the buyer
    identifier and the credential, and no test-mode flag. *)
Lemma rollback_document_without_istest :
  get_xml (Sample.session true 3) (Rollback (Some "T1"))
  = Ok (EN "vct:RollbackRequest"
          [E "vct:BuyersID" "buyer";
           EN "vct:Credential" [E "vct:Password" "secret"];
           E "vct:TransactionID" "T1"])
  /\ ~ xml_credentials_as_stated (Sample.session true 3) (Rollback (Some "T1")).
Proof.
  split; [reflexivity|]. intros H.
  destruct (H _ eq_refl) as [_ Hi]. vm_compute in Hi. discriminate.
Qed.

(** * Rollback *)

(** C5: when the dispatch of the rollback request raises, [rollback]
    returns normally if the failure is the protocol error 404 and raises
    the very same failure in every other case; the requests issued are
    those of the dispatch. *)
Theorem rollback_tolerance (X : Externals) (ctx : Context) (data : Element)
    (sent sent' : list HttpRequest) (e : exn) :
  dispatch_request X ctx (Rollback (field_tan X data)) sent = (Raise e, sent') ->
  rollback X ctx data sent
  = (if bool_decide (code e = Some ERR_NOT_SUPPORTED) then Ok tt else Raise e,
     sent').
Proof.
  intros H. unfold rollback, Rollback_execute, bind. rewrite H.
  destruct e; try reflexivity.
  repeat case_bool_decide; done.
Qed.

Lemma rollback_tolerance_witness :
  let order := Sample.envelope "vco:OrderResponse" "200" [E "vct:TransactionID" "T1"] in
  let r := HttpGet "https://p.example/get"
             [("RequestName", PStr "RollbackRequest");
              ("TransactionID", PStr "T1");
              ("BuyersID", PStr "buyer"); ("Password", PStr "secret");
              ("IsTest", PBool false)] in
  rollback (Sample.partner ["404"] Sample.documents) (Sample.session true 3) order []
  = (Ok tt, [r])
  /\ rollback (Sample.partner ["500"] Sample.documents) (Sample.session true 3) order []
     = (Raise (VeloConnectException 500 "Internal error. (Code: 500)"), [r]).
Proof.
  intros order r. split.
  - exact (rollback_tolerance (Sample.partner ["404"] Sample.documents)
             (Sample.session true 3) order [] [r]
             (VeloConnectException 404 "Request not supported. (Code: 404)")
             eq_refl).
  - exact (rollback_tolerance (Sample.partner ["500"] Sample.documents)
             (Sample.session true 3) order [] [r]
             (VeloConnectException 500 "Internal error. (Code: 500)")
             eq_refl).
Defined.

(** * Pagination *)

Lemma bind_ret_log {A B} (c : io A) (f : A -> B) (sent : list HttpRequest) :
  ((x <- c ;; ret (f x)) sent).2 = (c sent).2.
Proof. unfold bind, ret. by destruct (c sent) as [[a|e] s]. Qed.

Lemma rendered_SearchResult (X : Externals) ctx binding uri tan offset lim :
  rendered X ctx binding uri (SearchResult tan offset lim)
  = result_request X ctx binding uri tan offset lim "ID_ONLY".
Proof.
  unfold rendered, result_request. case_bool_decide; [|done].
  by destruct tan.
Qed.

Lemma rendered_SearchReadResult (X : Externals) ctx binding uri tan offset lim :
  rendered X ctx binding uri (SearchReadResult tan offset lim)
  = result_request X ctx binding uri tan offset lim "ITEM_DETAIL".
Proof.
  unfold rendered, result_request. case_bool_decide; [|done].
  by destruct tan.
Qed.

(** C6: after a search step that returned a total count other than 0,
    [search] and [search_read] (called without the count flag) send the
    search-result request and nothing else, at least once; its [Count] is
    the total count when the limit is not positive, and the limit itself
    when it is positive. *)
Theorem pagination_substitution (X : Externals) (ctx : Context)
    (keywords : option string) (offset limit : Z)
    (sent sent1 : list HttpRequest) (root : Element)
    (params : BindingTable) (binding : option string) (uri : string) :
  dispatch_request X ctx (CreateTextSearch keywords) sent = (Ok root, sent1) ->
  field_count X root <> Some 0 ->
  _params ctx = Some params ->
  params !! Some "TextSearch" = Some (binding, uri) ->
  let tan := field_tan X root in
  let count := if bool_decide (limit <= 0) then count_val (field_count X root)
               else PInt limit in
  (forall r,
      result_request X ctx binding uri tan offset count "ID_ONLY" = Ok r ->
      exists k, (1 <= k)%nat
                /\ (search X ctx keywords offset limit false sent).2
                   = sent1 ++ replicate k r)
  /\ (forall r,
        result_request X ctx binding uri tan offset count "ITEM_DETAIL" = Ok r ->
        exists k, (1 <= k)%nat
                  /\ (search_read X ctx keywords offset limit false sent).2
                     = sent1 ++ replicate k r).
Proof.
  intros Hd Hc Hctx Hp tan count.
  destruct (dispatch_ok_inv _ _ _ _ _ _ Hd) as (_ & _ & _ & _ & _ & Hn).
  split; intros r Hr.
  - rewrite <- rendered_SearchResult in Hr.
    destruct (dispatch_log X ctx params (SearchResult tan offset count)
                binding uri r sent1 Hctx Hp Hr Hn) as (k & Hk & Hl).
    exists k. split; [lia|].
    unfold search, CreateTextSearch_execute.
    unfold bind at 1. unfold bind at 1. rewrite Hd. cbn [ret response_data].
    rewrite bool_decide_eq_false_2 by done.
    rewrite bind_ret_log. unfold SearchResult_execute. rewrite bind_ret_log.
    exact Hl.
  - rewrite <- rendered_SearchReadResult in Hr.
    destruct (dispatch_log X ctx params (SearchReadResult tan offset count)
                binding uri r sent1 Hctx Hp Hr Hn) as (k & Hk & Hl).
    exists k. split; [lia|].
    unfold search_read, CreateTextSearch_execute.
    unfold bind at 1. unfold bind at 1. rewrite Hd. cbn [ret response_data].
    rewrite bool_decide_eq_false_2 by done.
    rewrite bind_ret_log. unfold SearchReadResult_execute. rewrite bind_ret_log.
    exact Hl.
Qed.

Lemma pagination_substitution_witness :
  let r1 := HttpGet "https://p.example/get"
              [("RequestName", PStr "CreateTextSearchRequest");
               ("SearchString", PStr "tyre");
               ("BuyersID", PStr "buyer"); ("Password", PStr "secret");
               ("IsTest", PBool false)] in
  let r2 := HttpGet "https://p.example/get"
              [("RequestName", PStr "SearchResultRequest");
               ("TransactionID", PStr "T7");
               ("StartIndex", PInt 0);
               ("Count", PInt 17);
               ("ResultFormat", PStr "ITEM_DETAIL");
               ("BuyersID", PStr "buyer"); ("Password", PStr "secret");
               ("IsTest", PBool false)] in
  exists k, (1 <= k)%nat
            /\ (search_read (Sample.partner ["found"; "page"] Sample.catalog)
                  (Sample.session true 3) (Some "tyre") 0 0 false []).2
               = [r1] ++ replicate k r2.
Proof.
  intros r1 r2.
  refine (proj2 (pagination_substitution
                   (Sample.partner ["found"; "page"] Sample.catalog)
                   (Sample.session true 3) (Some "tyre") 0 0 [] [r1]
                   Sample.found_17 Sample.table (Some "URL")
                   "https://p.example/get" eq_refl _ eq_refl eq_refl)
            r2 eq_refl).
  vm_compute. discriminate.
Defined.

(** The whole exchange of the sample: the second request asks for 17
    items. *)
Example search_read_all :
  search_read (Sample.partner ["found"; "page"] Sample.catalog)
    (Sample.session false 3) (Some "tyre") 0 0 false []
  = (Ok (SItems (RNodes [Sample.item "A1"; Sample.replaced_item "A2" "A9";
                         Sample.item "A3"])),
     [HttpGet "https://p.example/get"
        [("RequestName", PStr "CreateTextSearchRequest");
         ("SearchString", PStr "tyre");
         ("BuyersID", PStr "buyer"); ("Password", PStr "secret");
         ("IsTest", PBool false)];
      HttpGet "https://p.example/get"
        [("RequestName", PStr "SearchResultRequest");
         ("TransactionID", PStr "T7");
         ("StartIndex", PInt 0);
         ("Count", PInt 17);
         ("ResultFormat", PStr "ITEM_DETAIL");
         ("BuyersID", PStr "buyer"); ("Password", PStr "secret");
         ("IsTest", PBool false)]]).
Proof. vm_compute. reflexivity. Qed.

(** * Single-item lookup *)

(** An absolute one-step path matches the document element or nothing. *)
Lemma xpath_root_at_most_one (t : string) (root : Element) :
  (length (xpath_root t root) <= 1)%nat.
Proof. unfold xpath_root. case_bool_decide; simpl; lia. Qed.

(** C7: once the dispatch has returned an envelope, the lookup is the
    selection on the nodes its result path matches in that envelope; the
    selection raises the typed error 461 on no node, raises the typed
    error 460 on more than one node, and returns on exactly one node: the
    node itself in raw mode, the product or [None] in mapped mode. *)
Theorem single_item_cardinality (X : Externals) (ctx : Context) (c : string)
    (sent sent' : list HttpRequest) (root : Element) (item : list Element) :
  dispatch_request X ctx (GetItemDetails c) sent = (Ok root, sent') ->
  GetItemDetails_execute X ctx c sent
  = (GetItemDetails_select X ctx (xpath_root "vco:GetItemDetailsResponse" root),
     sent')
  /\ match item with
     | [] =>
         GetItemDetails_select X ctx item
         = Raise (VeloConnectException ERR_ELEMENT_NOT_FOUND
                    "Element not found (Code: 461)")
     | [item0] =>
         GetItemDetails_select X ctx item
         = Ok (if _use_objects ctx
               then match _format_item X item0 with
                    | Some p => RProduct p
                    | None => RNone
                    end
               else RNode item0)
     | _ :: _ :: _ =>
         GetItemDetails_select X ctx item
         = Raise (VeloConnectException ERR_MULTIPLE_ELEMENT_FOUND
                    "More than one elements found. (Code: 460)")
     end.
Proof.
  intros Hd. split.
  - unfold GetItemDetails_execute, bind. by rewrite Hd.
  - destruct item as [|item0 [|item1 rest]]; unfold GetItemDetails_select.
    + reflexivity.
    + simpl. by destruct (_use_objects ctx).
    + rewrite bool_decide_eq_true_2 by (simpl; lia). reflexivity.
Qed.

Lemma single_item_cardinality_witness :
  let r := HttpGet "https://p.example/get"
             [("RequestName", PStr "GetItemDetailsRequest");
              ("SellersItemIdentification", PStr "A1");
              ("BuyersID", PStr "buyer"); ("Password", PStr "secret");
              ("IsTest", PBool false)] in
  GetItemDetails_execute (Sample.partner ["ok"] Sample.documents)
    (Sample.session true 3) "A1" []
  = (Raise (VeloConnectException 461 "Element not found (Code: 461)"), [r])
  /\ GetItemDetails_select (Sample.partner ["ok"] Sample.documents)
       (Sample.session true 3) [Sample.item "A1"; Sample.item "A1"]
     = Raise (VeloConnectException 460 "More than one elements found. (Code: 460)").
Proof.
  intros r.
  exact (single_item_cardinality (Sample.partner ["ok"] Sample.documents)
           (Sample.session true 3) "A1" [] [r] Sample.ok_rollback
           [Sample.item "A1"; Sample.item "A1"] eq_refl).
Defined.

(** * Resolution of the binding table *)

(** Discovery issues exactly its one request, whatever comes back. *)
Lemma get_params_log (X : Externals) (ctx : Context) (sent : list HttpRequest) :
  (get_params X ctx sent).2 = sent ++ [discovery_request ctx].
Proof.
  unfold get_params, bind, query_get, http, discovery_request. simpl.
  destruct (http_send X sent _) as [body|]; [|done].
  by destruct (etree_fromstring X body).
Qed.

Lemma load_params_resolved (X : Externals) (ctx : Context) t sent :
  _params ctx = Some t -> _load_params X ctx sent = ((Ok tt, ctx), sent).
Proof. intros H. unfold _load_params. by rewrite H. Qed.

Lemma gets_resolved (X : Externals) (names : list string) :
  forall ctx t sent, _params ctx = Some t -> gets X ctx names sent = (ctx, sent).
Proof.
  induction names as [|n names IH]; intros ctx t sent H; [done|].
  simpl. unfold get. rewrite (load_params_resolved X ctx t sent H).
  by apply (IH ctx t).
Qed.

(** C8, as the code has it: (1) on a resolved session no call for a class
    issues a request or changes the session, however many calls are made;
    (2) on an unresolved session a discovery that returns issues one
    request and stores the table, after which (1) applies; (3) a
    discovery that raises leaves the session unresolved, its failure is
    the failure of the call, and the next call issues the discovery
    request again; (4) a well-formed answer whose entries all name a
    binding and an operation is no failure, whatever response code it
    carries: the discovery returns a table. *)
Theorem resolution_memoization (X : Externals) (ctx : Context)
    (sent : list HttpRequest) :
  (forall t names, _params ctx = Some t -> gets X ctx names sent = (ctx, sent))
  /\ (_params ctx = None ->
      (forall table sent',
          get_params X ctx sent = (Ok table, sent') ->
          _load_params X ctx sent = ((Ok tt, set_params ctx (Some table)), sent')
          /\ sent' = sent ++ [discovery_request ctx]
          /\ forall names s,
               gets X (set_params ctx (Some table)) names s
               = (set_params ctx (Some table), s))
      /\ (forall e sent',
            get_params X ctx sent = (Raise e, sent') ->
            _load_params X ctx sent = ((Raise e, ctx), sent')
            /\ (forall n, get X ctx n sent = ((Raise e, ctx), sent'))
            /\ (forall n, (get X ctx n sent').2 = sent' ++ [discovery_request ctx])))
  /\ (forall body root,
        http_send X sent (discovery_request ctx) = Some body ->
        etree_fromstring X body = Some root ->
        Forall well_formed_entry
          (xpath_root3 "vcp:GetProfileResponse" "vcp:VeloconnectProfile"
             "vcp:Implements" root) ->
        exists table,
          get_params X ctx sent = (Ok table, sent ++ [discovery_request ctx])).
Proof.
  split; [intros t names H; by apply (gets_resolved X names ctx t)|].
  split.
  2:{ intros body root Hs Hx Hwf.
      destruct (build_bindings_total (_url ctx) _ ∅ Hwf) as [table Ht].
      exists table. unfold get_params, bind, query_get, http.
      unfold discovery_request in Hs. simpl. rewrite Hs, Hx.
      unfold lift. by rewrite Ht. }
  intros Hnone. split.
  - intros table sent' Hg. split; [|split].
    + unfold _load_params. by rewrite Hnone, Hg.
    + pose proof (get_params_log X ctx sent) as Hl. by rewrite Hg in Hl.
    + intros names s. by apply (gets_resolved X names _ table).
  - intros e sent' Hg.
    assert (_load_params X ctx sent = (Raise e, ctx, sent')) as Hl
      by (unfold _load_params; by rewrite Hnone, Hg).
    split; [done|]. split.
    + intros n. unfold get. by rewrite Hl.
    + intros n. unfold get, _load_params. rewrite Hnone.
      pose proof (get_params_log X ctx sent') as Hl'.
      by destruct (get_params X ctx sent') as [[t|e'] s]; simpl in *; subst s.
Qed.

Lemma resolution_memoization_witness :
  let X := Sample.partner ["<broken"; "profile"] Sample.profiles in
  let d := discovery_request Sample.fresh in
  _load_params X Sample.fresh [] = ((Raise XMLSyntaxError, Sample.fresh), [d])
  /\ (forall n, get X Sample.fresh n [] = ((Raise XMLSyntaxError, Sample.fresh), [d]))
  /\ (forall n, (get X Sample.fresh n [d]).2 = [d; d]).
Proof.
  intros X d.
  exact (proj2 (proj1 (proj2 (resolution_memoization X Sample.fresh [])) eq_refl)
           XMLSyntaxError [d] eq_refl).
Defined.

(** The sample session: the first call fails on a malformed profile, the
    second resolves the table, the third and fourth issue nothing. *)
Example discovery_once_after_success :
  gets (Sample.partner ["<broken"; "profile"] Sample.profiles) Sample.fresh
    ["Product"; "Product"; "Order"; "Product"] []
  = (set_params Sample.fresh
       (Some (<[Some "TextSearch" := (Some "XML-POST", "https://a.example/post")]> ∅)),
     [discovery_request Sample.fresh; discovery_request Sample.fresh]).
Proof. vm_compute. reflexivity. Qed.

(** C8 as stated fails: the partner answers the discovery with a
    well-formed envelope whose code is 410 and which lists nothing; the
    call returns normally, the empty table is stored, and no later call
    repeats the discovery. *)
Lemma non_success_discovery_is_cached :
  let X := Sample.partner ["refused"] Sample.refusals in
  let resolved := set_params Sample.fresh (Some ∅) in
  non_success_answer X Sample.fresh []
  /\ _load_params X Sample.fresh []
     = ((Ok tt, resolved), [discovery_request Sample.fresh])
  /\ gets X resolved ["Product"; "Order"] [discovery_request Sample.fresh]
     = (resolved, [discovery_request Sample.fresh])
  /\ ~ failed_discovery_as_stated X Sample.fresh [].
Proof.
  intros X resolved.
  assert (non_success_answer X Sample.fresh []) as Hns.
  { exists "refused", Sample.refused_profile, 410.
    repeat split; try reflexivity. discriminate. }
  split; [exact Hns|]. split; [reflexivity|]. split; [reflexivity|].
  intros H. destruct (H eq_refl Hns) as [e He].
  vm_compute in He. discriminate He.
Qed.

(** * Raw mode *)

Lemma bind_ok_inv {A B} (c : io A) (k : A -> io B) sent v s :
  (x <- c ;; k x) sent = (Ok v, s) ->
  exists a s1, c sent = (Ok a, s1) /\ k a s1 = (Ok v, s).
Proof.
  unfold bind. destruct (c sent) as [[a|e] s1]; [|discriminate].
  intros H. by exists a, s1.
Qed.

(** C9, as the code has it: on a session whose [_use_objects] flag is
    off, the single lookup returns the matched node, and the batch lookup
    and the full-detail search results return the list of matched nodes;
    order creation returns an order entity built on the envelope,
    whatever the flag. *)
Theorem raw_mode_switch (X : Externals) (ctx : Context)
    (sent s : list HttpRequest) (v : returned) :
  (_use_objects ctx = false ->
   (forall c,
       GetItemDetails_execute X ctx c sent = (Ok v, s) ->
       exists root,
         dispatch_request X ctx (GetItemDetails c) sent = (Ok root, s)
         /\ tag root = "vco:GetItemDetailsResponse" /\ v = RNode root)
   /\ (forall codes,
         GetItemDetailsList_execute X ctx codes sent = (Ok v, s) ->
         exists root,
           dispatch_request X ctx (GetItemDetailsList codes) sent = (Ok root, s)
           /\ v = RNodes (xpath_root2 "vco:GetItemDetailsListResponse"
                            "vco:ItemDetail" root))
   /\ (forall tan offset limit,
         SearchReadResult_execute X ctx tan offset limit sent = (Ok v, s) ->
         exists root,
           dispatch_request X ctx (SearchReadResult tan offset limit) sent
           = (Ok root, s)
           /\ v = RNodes (xpath_root2 "vcc:SearchResultResponse"
                            "vco:ItemDetail" root)))
  /\ (forall lines,
        CreateOrder_execute X ctx lines sent = (Ok v, s) ->
        exists root,
          dispatch_request X ctx (CreateOrder lines) sent = (Ok root, s)
          /\ v = ROrder {| order_data := root; order_ctx := ctx |}).
Proof.
  split.
  - intros Hraw. split; [|split].
    + intros c H. apply bind_ok_inv in H as (root & s1 & Hd & Hk).
      unfold lift, GetItemDetails_select, xpath_root in Hk.
      rewrite Hraw in Hk.
      destruct (decide (tag root = "vco:GetItemDetailsResponse")) as [Ht|Ht].
      * rewrite (bool_decide_eq_true_2 _ Ht) in Hk. simpl in Hk.
        injection Hk as <- <-. by exists root.
      * rewrite (bool_decide_eq_false_2 _ Ht) in Hk. discriminate.
    + intros codes H. apply bind_ok_inv in H as (root & s1 & Hd & Hk).
      unfold ret, items_returned in Hk. rewrite Hraw in Hk.
      injection Hk as <- <-. by exists root.
    + intros tan offset limit H. apply bind_ok_inv in H as (root & s1 & Hd & Hk).
      unfold ret, items_returned in Hk. rewrite Hraw in Hk.
      injection Hk as <- <-. by exists root.
  - intros lines H. apply bind_ok_inv in H as (root & s1 & Hd & Hk).
    unfold ret in Hk. injection Hk as <- <-. by exists root.
Qed.

Lemma raw_mode_switch_witness :
  let X := Sample.partner ["page"] Sample.catalog in
  let r := HttpGet "https://p.example/get"
             [("RequestName", PStr "SearchResultRequest");
              ("TransactionID", PStr "T7");
              ("StartIndex", PInt 0);
              ("Count", PInt 17);
              ("ResultFormat", PStr "ITEM_DETAIL");
              ("BuyersID", PStr "buyer"); ("Password", PStr "secret");
              ("IsTest", PBool false)] in
  let nodes := [Sample.item "A1"; Sample.replaced_item "A2" "A9"; Sample.item "A3"] in
  exists root,
    dispatch_request X (Sample.session false 3)
      (SearchReadResult (Some "T7") 0 (PInt 17)) [] = (Ok root, [r])
    /\ RNodes nodes
       = RNodes (xpath_root2 "vcc:SearchResultResponse" "vco:ItemDetail" root).
Proof.
  intros X r nodes.
  exact (proj2 (proj2 (proj1 (raw_mode_switch X (Sample.session false 3) [] [r]
                                (RNodes nodes)) eq_refl))
           (Some "T7") 0 (PInt 17) eq_refl).
Defined.

(** C9 as stated fails: on a raw-mode session, order creation returns an
    order entity, not the raw envelope. *)
Lemma order_creation_ignores_raw_mode :
  let X := Sample.partner ["created"] Sample.orders in
  let ctx := Sample.session false 3 in
  (exists s,
      CreateOrder_execute X ctx [] []
      = (Ok (ROrder {| order_data := Sample.order_created; order_ctx := ctx |}), s))
  /\ ~ raw_mode_as_stated X ctx.
Proof.
  intros X ctx.
  assert (exists s,
             CreateOrder_execute X ctx [] []
             = (Ok (ROrder {| order_data := Sample.order_created;
                              order_ctx := ctx |}), s)) as Hs
    by (eexists; vm_compute; reflexivity).
  split; [exact Hs|]. destruct Hs as [s Hs]. intros H.
  specialize (H eq_refl [] _ s
                (or_intror (or_intror (or_intror (ex_intro _ [] Hs))))).
  discriminate H.
Qed.

(** * Replacement filtering *)

Lemma format_item_replaced (X : Externals) (item : Element) :
  _format_item X item
  = if replaced X item then None else Some {| product_data := item |}.
Proof. unfold _format_item, replaced. simpl. by destruct (truthy _). Qed.

Lemma format_items_kept (X : Externals) (items : list Element) :
  _format_items X items = kept X items.
Proof.
  unfold kept. induction items as [|item items IH]; [done|].
  simpl. rewrite format_item_replaced, filter_cons.
  destruct (replaced X item); case_decide; try congruence.
  simpl. by rewrite IH.
Qed.

Lemma kept_length (X : Externals) (items : list Element) :
  (length (kept X items)
   + length (filter (fun item => replaced X item = true) items)
   = length items)%nat.
Proof.
  unfold kept. rewrite length_fmap.
  induction items as [|item items IH]; [done|].
  rewrite !filter_cons.
  destruct (replaced X item); repeat case_decide; try congruence; simpl; lia.
Qed.

(** C10: in mapped mode, (1) the selection of the single lookup yields
    [None] for a node whose replacement field is set and the product
    otherwise, and so does the lookup once the dispatch has returned an
    envelope that its path matches; (2) the batch lookup and the
    full-detail search results return the products of the matched nodes
    that have no replacement, in order, without raising; (3) the list
    returned is shorter than the list of matched nodes by the number of
    nodes with a replacement. *)
Theorem replacement_filtering (X : Externals) (ctx : Context)
    (sent s : list HttpRequest) (root : Element) :
  _use_objects ctx = true ->
  (forall item0,
      GetItemDetails_select X ctx [item0]
      = Ok (if replaced X item0 then RNone
            else RProduct {| product_data := item0 |}))
  /\ (forall c,
        dispatch_request X ctx (GetItemDetails c) sent = (Ok root, s) ->
        tag root = "vco:GetItemDetailsResponse" ->
        GetItemDetails_execute X ctx c sent
        = (Ok (if replaced X root then RNone
               else RProduct {| product_data := root |}), s))
  /\ (forall codes,
        dispatch_request X ctx (GetItemDetailsList codes) sent = (Ok root, s) ->
        GetItemDetailsList_execute X ctx codes sent
        = (Ok (RProducts
                 (kept X (xpath_root2 "vco:GetItemDetailsListResponse"
                            "vco:ItemDetail" root))), s))
  /\ (forall tan offset limit,
        dispatch_request X ctx (SearchReadResult tan offset limit) sent
        = (Ok root, s) ->
        SearchReadResult_execute X ctx tan offset limit sent
        = (Ok (RProducts
                 (kept X (xpath_root2 "vcc:SearchResultResponse"
                            "vco:ItemDetail" root))), s))
  /\ (forall items,
        items_returned X ctx items = RProducts (kept X items)
        /\ (length (kept X items)
            + length (filter (fun item => replaced X item = true) items)
            = length items)%nat).
Proof.
  intros Hobj.
  assert (forall item0,
             GetItemDetails_select X ctx [item0]
             = Ok (if replaced X item0 then RNone
                   else RProduct {| product_data := item0 |})) as Hsel.
  { intros item0. unfold GetItemDetails_select. simpl.
    rewrite Hobj, format_item_replaced. simpl. by destruct (replaced X item0). }
  assert (forall items, items_returned X ctx items = RProducts (kept X items)) as Hret.
  { intros items. unfold items_returned. by rewrite Hobj, format_items_kept. }
  split; [exact Hsel|]. split; [|split; [|split]].
  - intros c Hd Ht. unfold GetItemDetails_execute, bind. rewrite Hd.
    unfold lift, xpath_root. rewrite (bool_decide_eq_true_2 _ Ht).
    by rewrite Hsel.
  - intros codes Hd. unfold GetItemDetailsList_execute, bind. rewrite Hd.
    unfold ret. by rewrite Hret.
  - intros tan offset limit Hd. unfold SearchReadResult_execute, bind.
    rewrite Hd. unfold ret. by rewrite Hret.
  - intros items. split; [apply Hret|apply kept_length].
Qed.

Lemma replacement_filtering_witness :
  let X := Sample.partner ["page"] Sample.catalog in
  let r := HttpGet "https://p.example/get"
             [("RequestName", PStr "SearchResultRequest");
              ("TransactionID", PStr "T7");
              ("StartIndex", PInt 0);
              ("Count", PInt 17);
              ("ResultFormat", PStr "ITEM_DETAIL");
              ("BuyersID", PStr "buyer"); ("Password", PStr "secret");
              ("IsTest", PBool false)] in
  SearchReadResult_execute X (Sample.session true 3) (Some "T7") 0 (PInt 17) []
  = (Ok (RProducts [ {| product_data := Sample.item "A1" |};
                     {| product_data := Sample.item "A3" |} ]), [r]).
Proof.
  intros X r.
  exact (proj1 (proj2 (proj2 (proj2
           (replacement_filtering X (Sample.session true 3) [] [r] Sample.page
              eq_refl))))
           (Some "T7") 0 (PInt 17) eq_refl).
Defined.

(** * Further properties of the dispatch *)

Lemma fetch_unrendered (X : Externals) (ctx : Context) (params : BindingTable)
    (request : Operation) binding uri e sent :
  params !! Some (_name request) = Some (binding, uri) ->
  rendered X ctx binding uri request = Raise e ->
  fetch X ctx params request sent = (Raise e, sent).
Proof.
  intros Hp Hr. unfold fetch, rendered in *. rewrite Hp.
  unfold bind, lift. case_bool_decide.
  - destruct (get_xml ctx request); [discriminate|]. by injection Hr as <-.
  - destruct (get_url_args request); [discriminate|]. by injection Hr as <-.
Qed.

Lemma fetch_transport_fails (X : Externals) (ctx : Context) (params : BindingTable)
    (request : Operation) binding uri r sent :
  params !! Some (_name request) = Some (binding, uri) ->
  rendered X ctx binding uri request = Ok r ->
  http_send X sent r = None ->
  fetch X ctx params request sent = (Raise RequestException, sent ++ [r]).
Proof.
  intros Hp Hr Hs. unfold fetch, rendered in *. rewrite Hp.
  unfold bind, lift, query_post, query_get, http.
  case_bool_decide.
  - destruct (get_xml ctx request); [|discriminate].
    injection Hr as <-. by rewrite Hs.
  - destruct (get_url_args request); [|discriminate].
    injection Hr as <-. by rewrite Hs.
Qed.

Lemma fetch_undecodable (X : Externals) (ctx : Context) (params : BindingTable)
    (request : Operation) binding uri r body sent :
  params !! Some (_name request) = Some (binding, uri) ->
  rendered X ctx binding uri request = Ok r ->
  http_send X sent r = Some body ->
  utf8_decodable X body = false ->
  fetch X ctx params request sent = (Raise UnicodeDecodeError, sent ++ [r]).
Proof.
  intros Hp Hr Hs Hu. unfold fetch, rendered in *. rewrite Hp.
  unfold bind, lift, query_post, query_get, http.
  case_bool_decide.
  - destruct (get_xml ctx request); [|discriminate].
    injection Hr as <-. by rewrite Hs, Hu.
  - destruct (get_url_args request); [|discriminate].
    injection Hr as <-. by rewrite Hs, Hu.
Qed.

Lemma replicate_snoc {A} (l : list A) (x : A) (k : nat) :
  (l ++ replicate k x) ++ [x] = l ++ replicate (S k) x.
Proof.
  rewrite <- app_assoc. f_equal.
  induction k as [|k IH]; [done|]. simpl. by rewrite IH.
Qed.

Section Stops.

Variable X : Externals.
Variables (ctx : Context) (params : BindingTable) (request : Operation).
Variables (binding : option string) (uri : string) (r : HttpRequest).
Hypothesis Hctx : _params ctx = Some params.
Hypothesis Hparams : params !! Some (_name request) = Some (binding, uri).
Hypothesis Hrendered : rendered X ctx binding uri request = Ok r.
Hypothesis Hbudget : 1 <= MAX_FETCH_TRIES ctx.

(** A pass that raises ends the loop with what it raised. *)
Lemma fetch_loop_stops : forall k n ntry sent e,
  (k < n)%nat ->
  (forall i, (i < k)%nat -> malformed_at X sent r i) ->
  fetch X ctx params request (sent ++ replicate k r)
  = (Raise e, sent ++ replicate (S k) r) ->
  fetch_loop X ctx params request n ntry sent
  = (Raise e, sent ++ replicate (S k) r).
Proof.
  induction k as [|k IH]; intros n ntry sent e Hk Hbad Hf;
    (destruct n as [|n]; [lia|]); cbn [fetch_loop]; unfold bind.
  - simpl in Hf. rewrite app_nil_r in Hf. by rewrite Hf.
  - destruct (Hbad 0%nat ltac:(lia)) as (body & Hs & Hu & Hx).
    rewrite app_nil_r in Hs.
    rewrite (fetch_sends _ _ _ _ _ _ _ _ _ Hparams Hrendered Hs Hu), Hx.
    rewrite (IH n (ntry + 1) (sent ++ [r]) e); [|lia| |].
    + by rewrite replicate_step.
    + intros i Hi. destruct (Hbad (S i) ltac:(lia)) as (b & ? & ? & ?).
      exists b. by rewrite replicate_step.
    + by rewrite !replicate_step.
Qed.

Lemma dispatch_stops k sent e :
  (k < Z.to_nat (MAX_FETCH_TRIES ctx))%nat ->
  (forall i, (i < k)%nat -> malformed_at X sent r i) ->
  fetch X ctx params request (sent ++ replicate k r)
  = (Raise e, sent ++ replicate (S k) r) ->
  dispatch_request X ctx request sent = (Raise e, sent ++ replicate (S k) r).
Proof.
  intros Hk Hbad Hf. unfold dispatch_request. rewrite Hctx, Hparams.
  rewrite bool_decide_eq_false_2 by done.
  rewrite bool_decide_eq_false_2 by lia.
  unfold bind. by rewrite (fetch_loop_stops k _ 0 sent e Hk Hbad Hf).
Qed.

Lemma dispatch_breaks k sent root :
  (k < Z.to_nat (MAX_FETCH_TRIES ctx))%nat ->
  (forall i, (i < k)%nat -> malformed_at X sent r i) ->
  well_formed_at X sent r k root ->
  dispatch_request X ctx request sent
  = (check_response X root, sent ++ replicate (S k) r).
Proof.
  intros Hk Hbad Hgood. unfold dispatch_request. rewrite Hctx, Hparams.
  rewrite bool_decide_eq_false_2 by done.
  rewrite bool_decide_eq_false_2 by lia.
  unfold bind.
  rewrite (fetch_loop_breaks X ctx params request binding uri r Hparams Hrendered
             k _ 0 sent root Hk Hbad Hgood).
  cbn [fst snd]. rewrite bool_decide_eq_false_2 by lia.
  reflexivity.
Qed.

End Stops.

(** X1: a dispatch that cannot start issues no request. On a session
    that has not resolved it raises [TypeError] (it never starts the
    discovery itself); for an operation the table does not list it raises
    the error 404, whatever the budget; for a listed operation and a
    budget of 0 or less it raises the error 513. *)
Theorem dispatch_preflight (X : Externals) (ctx : Context) (request : Operation)
    (sent : list HttpRequest) :
  (_params ctx = None ->
   dispatch_request X ctx request sent = (Raise TypeError, sent))
  /\ (forall params,
        _params ctx = Some params ->
        params !! Some (_name request) = None ->
        dispatch_request X ctx request sent
        = (Raise (VeloConnectException ERR_NOT_SUPPORTED
                    "Request not supported. (Code: 404)"), sent))
  /\ (forall params binding uri,
        _params ctx = Some params ->
        params !! Some (_name request) = Some (binding, uri) ->
        MAX_FETCH_TRIES ctx <= 0 ->
        dispatch_request X ctx request sent
        = (Raise (VeloConnectException ERR_INVALID_MAX_TRIES
                    "Max tries values should be greater than 0. (Code: 513)"),
           sent)).
Proof.
  unfold dispatch_request. split; [|split].
  - by intros ->.
  - intros params -> Hn. by rewrite bool_decide_eq_true_2.
  - intros params binding uri -> Hp Hn. rewrite Hp.
    rewrite bool_decide_eq_false_2 by done.
    by rewrite bool_decide_eq_true_2.
Qed.

Lemma dispatch_preflight_witness :
  dispatch_request (Sample.partner [] []) Sample.fresh (ViewOrder (Some "T1")) []
  = (Raise TypeError, [])
  /\ dispatch_request (Sample.partner [] []) (Sample.session true 0)
       GetClassificationScheme []
     = (Raise (VeloConnectException 404 "Request not supported. (Code: 404)"), [])
  /\ dispatch_request (Sample.partner [] []) (Sample.session true 0)
       (ViewOrder (Some "T1")) []
     = (Raise (VeloConnectException 513
                 "Max tries values should be greater than 0. (Code: 513)"), []).
Proof.
  split; [|split].
  - exact (proj1 (dispatch_preflight (Sample.partner [] []) Sample.fresh
                    (ViewOrder (Some "T1")) []) eq_refl).
  - exact (proj1 (proj2 (dispatch_preflight (Sample.partner [] [])
                           (Sample.session true 0) GetClassificationScheme []))
             Sample.table eq_refl eq_refl).
  - exact (proj2 (proj2 (dispatch_preflight (Sample.partner [] [])
                           (Sample.session true 0) (ViewOrder (Some "T1")) []))
             Sample.table (Some "XML-POST") "https://p.example/post"
             eq_refl eq_refl ltac:(simpl; lia)).
Defined.

(** X2: whatever the partner does, a dispatch adds to the requests issued
    so far nothing but copies of one request, and no more of them than
    the budget of attempts. *)
Theorem dispatch_within_budget (X : Externals) (ctx : Context)
    (request : Operation) (sent : list HttpRequest) :
  exists k r,
    (k <= Z.to_nat (MAX_FETCH_TRIES ctx))%nat
    /\ (dispatch_request X ctx request sent).2 = sent ++ replicate k r.
Proof.
  assert (forall res : result Element,
             exists k r, (k <= Z.to_nat (MAX_FETCH_TRIES ctx))%nat
                         /\ (res, sent).2 = sent ++ replicate k r) as Hnone.
  { intros res. exists 0%nat, no_request. simpl. split; [lia|by rewrite app_nil_r]. }
  destruct (_params ctx) as [params|] eqn:Hctx.
  2:{ unfold dispatch_request. rewrite Hctx. apply Hnone. }
  destruct (params !! Some (_name request)) as [[binding uri]|] eqn:Hp.
  2:{ unfold dispatch_request. rewrite Hctx, Hp.
      rewrite bool_decide_eq_true_2 by done. apply Hnone. }
  destruct (decide (MAX_FETCH_TRIES ctx <= 0)) as [Hn|Hn].
  { unfold dispatch_request. rewrite Hctx, Hp.
    rewrite bool_decide_eq_false_2 by done.
    rewrite bool_decide_eq_true_2 by done. apply Hnone. }
  destruct (rendered X ctx binding uri request) as [r|e] eqn:Hr.
  - destruct (dispatch_log X ctx params request binding uri r sent Hctx Hp Hr
                ltac:(lia)) as (k & Hk & Hl).
    exists k, r. split; [lia|done].
  - unfold dispatch_request. rewrite Hctx, Hp.
    rewrite bool_decide_eq_false_2 by done.
    rewrite bool_decide_eq_false_2 by done.
    destruct (Z.to_nat (MAX_FETCH_TRIES ctx)) as [|n] eqn:HN; [lia|].
    cbn [fetch_loop]. unfold bind.
    rewrite (fetch_unrendered X ctx params request binding uri e sent Hp Hr).
    exists 0%nat, no_request. simpl. split; [lia|by rewrite app_nil_r].
Qed.

(** X3: a failure of the transport is not retried: after [k] malformed
    bodies, an attempt on which the transport raises ends the dispatch
    with that failure, [k + 1] requests having been issued. *)
Theorem transport_failure_not_retried (X : Externals) (ctx : Context)
    (params : BindingTable) (request : Operation) (binding : option string)
    (uri : string) (r : HttpRequest) (sent : list HttpRequest) (k : nat) :
  _params ctx = Some params ->
  params !! Some (_name request) = Some (binding, uri) ->
  rendered X ctx binding uri request = Ok r ->
  (k < Z.to_nat (MAX_FETCH_TRIES ctx))%nat ->
  (forall i, (i < k)%nat -> malformed_at X sent r i) ->
  transport_fails_at X sent r k ->
  dispatch_request X ctx request sent
  = (Raise RequestException, sent ++ replicate (S k) r).
Proof.
  intros Hctx Hp Hr Hk Hbad Hf.
  apply (dispatch_stops X ctx params request binding uri r Hctx Hp Hr
           ltac:(lia) k sent RequestException Hk Hbad).
  rewrite (fetch_transport_fails X ctx params request binding uri r _ Hp Hr Hf).
  by rewrite replicate_snoc.
Qed.

Lemma transport_failure_not_retried_witness :
  let r := HttpGet "https://p.example/get"
             [("RequestName", PStr "RollbackRequest");
              ("TransactionID", PStr "T1");
              ("BuyersID", PStr "buyer"); ("Password", PStr "secret");
              ("IsTest", PBool false)] in
  dispatch_request (Sample.partner ["<broken"] Sample.documents)
    (Sample.session true 3) (Rollback (Some "T1")) []
  = (Raise RequestException, [r; r]).
Proof.
  intros r.
  apply (transport_failure_not_retried
           (Sample.partner ["<broken"] Sample.documents) (Sample.session true 3)
           Sample.table (Rollback (Some "T1")) (Some "URL")
           "https://p.example/get" r [] 1 eq_refl eq_refl eq_refl).
  - simpl. lia.
  - intros i Hi. destruct i as [|i]; [|lia].
    exists "<broken". repeat split; reflexivity.
  - reflexivity.
Defined.

(** X4: a body that does not decode as UTF-8 is not retried either, and
    not parsed: the log line of the loop raises [UnicodeDecodeError] on
    it, after [k] malformed bodies and [k + 1] requests. *)
Theorem undecodable_body_not_retried (X : Externals) (ctx : Context)
    (params : BindingTable) (request : Operation) (binding : option string)
    (uri : string) (r : HttpRequest) (sent : list HttpRequest) (k : nat) :
  _params ctx = Some params ->
  params !! Some (_name request) = Some (binding, uri) ->
  rendered X ctx binding uri request = Ok r ->
  (k < Z.to_nat (MAX_FETCH_TRIES ctx))%nat ->
  (forall i, (i < k)%nat -> malformed_at X sent r i) ->
  undecodable_at X sent r k ->
  dispatch_request X ctx request sent
  = (Raise UnicodeDecodeError, sent ++ replicate (S k) r).
Proof.
  intros Hctx Hp Hr Hk Hbad (body & Hs & Hu).
  apply (dispatch_stops X ctx params request binding uri r Hctx Hp Hr
           ltac:(lia) k sent UnicodeDecodeError Hk Hbad).
  rewrite (fetch_undecodable X ctx params request binding uri r body _ Hp Hr Hs Hu).
  by rewrite replicate_snoc.
Qed.

Lemma undecodable_body_not_retried_witness :
  let r := HttpGet "https://p.example/get"
             [("RequestName", PStr "RollbackRequest");
              ("TransactionID", PStr "T1");
              ("BuyersID", PStr "buyer"); ("Password", PStr "secret");
              ("IsTest", PBool false)] in
  dispatch_request (Sample.latin1_partner ["ok"] Sample.documents)
    (Sample.session true 3) (Rollback (Some "T1")) []
  = (Raise UnicodeDecodeError, [r]).
Proof.
  intros r.
  apply (undecodable_body_not_retried
           (Sample.latin1_partner ["ok"] Sample.documents) (Sample.session true 3)
           Sample.table (Rollback (Some "T1")) (Some "URL")
           "https://p.example/get" r [] 0 eq_refl eq_refl eq_refl).
  - simpl. lia.
  - intros i Hi. lia.
  - exists "ok". split; reflexivity.
Defined.

Lemma dispatch_unrendered (X : Externals) (ctx : Context) (params : BindingTable)
    (request : Operation) binding uri e sent :
  _params ctx = Some params ->
  params !! Some (_name request) = Some (binding, uri) ->
  1 <= MAX_FETCH_TRIES ctx ->
  rendered X ctx binding uri request = Raise e ->
  dispatch_request X ctx request sent = (Raise e, sent).
Proof.
  intros Hctx Hp Hn Hr. unfold dispatch_request. rewrite Hctx, Hp.
  rewrite bool_decide_eq_false_2 by done.
  rewrite bool_decide_eq_false_2 by lia.
  destruct (Z.to_nat (MAX_FETCH_TRIES ctx)) as [|n] eqn:HN; [lia|].
  cbn [fetch_loop]. unfold bind.
  by rewrite (fetch_unrendered X ctx params request binding uri e sent Hp Hr).
Qed.

(** X5: viewing and updating an order have no URL rendering: on a
    resolved session whose table binds the order operation to anything
    but XML-POST, [Order._load] and [Order.add_lines] issue no request and
    raise: the error 513 when the budget of attempts is 0 or less,
    [NotImplementedError] otherwise. *)
Theorem order_view_update_need_post (X : Externals) (o : Order)
    (params : BindingTable) (binding : option string) (uri : string)
    (sent : list HttpRequest) :
  _params (order_ctx o) = Some params ->
  params !! Some "Order" = Some (binding, uri) ->
  binding <> Some "XML-POST" ->
  let e := if bool_decide (MAX_FETCH_TRIES (order_ctx o) <= 0)
           then VeloConnectException ERR_INVALID_MAX_TRIES
                  "Max tries values should be greater than 0. (Code: 513)"
           else NotImplementedError "URL binding not implemented for Order." in
  (forall tan, _load X o tan sent = (Raise e, sent))
  /\ (forall lines, add_lines X o lines sent = (Raise e, sent)).
Proof.
  intros Hctx Hp Hb e.
  assert (forall request,
             _name request = "Order" ->
             rendered X (order_ctx o) binding uri request
             = Raise (NotImplementedError "URL binding not implemented for Order.") ->
             dispatch_request X (order_ctx o) request sent = (Raise e, sent)) as Hd.
  { intros request Hname Hr. subst e. case_bool_decide as Hn.
    - unfold dispatch_request. rewrite Hctx, Hname, Hp.
      rewrite bool_decide_eq_false_2 by done.
      by rewrite bool_decide_eq_true_2.
    - apply (dispatch_unrendered X (order_ctx o) params request binding uri);
        [done|by rewrite Hname|lia|done]. }
  split.
  - intros tan. unfold _load, ViewOrder_execute, bind.
    rewrite (Hd (ViewOrder tan) eq_refl); [done|].
    unfold rendered. by rewrite bool_decide_eq_false_2.
  - intros lines. unfold add_lines, UpdateOrder_execute, bind.
    rewrite (Hd (UpdateOrder (field_tan X (order_data o)) (_build_lines lines))
               eq_refl); [done|].
    unfold rendered. by rewrite bool_decide_eq_false_2.
Qed.

Lemma order_view_update_need_post_witness :
  let o := {| order_data := Sample.order_created;
              order_ctx := Sample.url_only_session |} in
  (forall tan,
      _load (Sample.partner [] []) o tan []
      = (Raise (NotImplementedError "URL binding not implemented for Order."), []))
  /\ (forall lines,
        add_lines (Sample.partner [] []) o lines []
        = (Raise (NotImplementedError "URL binding not implemented for Order."), [])).
Proof.
  intros o.
  apply (order_view_update_need_post (Sample.partner [] []) o
           Sample.url_only_table (Some "URL") "https://p.example/get" []
           eq_refl eq_refl).
  discriminate.
Defined.

(** X6: a well-formed body is accepted as an envelope only with exactly
    one response code: when the body of attempt [k + 1] parses to a
    document that holds no [vct:ResponseCode] element, or more than one,
    the dispatch raises [ValueError] and does not retry. *)
Theorem envelope_needs_one_response_code (X : Externals) (ctx : Context)
    (params : BindingTable) (request : Operation) (binding : option string)
    (uri : string) (r : HttpRequest) (sent : list HttpRequest) (k : nat)
    (root : Element) :
  _params ctx = Some params ->
  params !! Some (_name request) = Some (binding, uri) ->
  rendered X ctx binding uri request = Ok r ->
  (k < Z.to_nat (MAX_FETCH_TRIES ctx))%nat ->
  (forall i, (i < k)%nat -> malformed_at X sent r i) ->
  well_formed_at X sent r k root ->
  length (xpath_any "vct:ResponseCode" root) <> 1%nat ->
  dispatch_request X ctx request sent
  = (Raise ValueError, sent ++ replicate (S k) r).
Proof.
  intros Hctx Hp Hr Hk Hbad Hgood Hlen.
  rewrite (dispatch_breaks X ctx params request binding uri r Hctx Hp Hr
             ltac:(lia) k sent root Hk Hbad Hgood).
  unfold check_response, response_code.
  by destruct (xpath_any "vct:ResponseCode" root) as [|c1 [|c2 l]].
Qed.

Lemma envelope_needs_one_response_code_witness :
  let r := HttpGet "https://p.example/get"
             [("RequestName", PStr "RollbackRequest");
              ("TransactionID", PStr "T1");
              ("BuyersID", PStr "buyer"); ("Password", PStr "secret");
              ("IsTest", PBool false)] in
  dispatch_request (Sample.partner ["<broken"; "twocodes"] Sample.oddities)
    (Sample.session true 3) (Rollback (Some "T1")) []
  = (Raise ValueError, [r; r]).
Proof.
  intros r.
  apply (envelope_needs_one_response_code
           (Sample.partner ["<broken"; "twocodes"] Sample.oddities)
           (Sample.session true 3) Sample.table (Rollback (Some "T1"))
           (Some "URL") "https://p.example/get" r [] 1 Sample.two_codes
           eq_refl eq_refl eq_refl).
  - simpl. lia.
  - intros i Hi. destruct i as [|i]; [|lia].
    exists "<broken". repeat split; reflexivity.
  - exists "twocodes". repeat split; reflexivity.
  - vm_compute. discriminate.
Defined.

(** * Further properties of the discovery *)

Lemma build_bindings_raises (url : string) (doc : list Element) :
  forall acc e, build_bindings url doc acc = Raise e ->
                e = AttributeError /\ ~ Forall well_formed_entry doc.
Proof.
  induction doc as [|impl doc IH]; intros acc e Hb; [discriminate|].
  simpl in Hb.
  assert (forall acc', build_bindings url doc acc' = Raise e ->
                       e = AttributeError
                       /\ ~ Forall well_formed_entry (impl :: doc)) as Hrest.
  { intros acc' H. destruct (IH _ _ H) as [-> Hn]. split; [done|].
    intros Hwf. by apply Forall_cons in Hwf as [_ ?]. }
  assert (forall e', Raise (A:=BindingTable) AttributeError = Raise e' ->
                     ~ is_Some (entry_binding impl) \/ ~ is_Some (entry_key impl) ->
                     e' = AttributeError
                     /\ ~ Forall well_formed_entry (impl :: doc)) as Hhead.
  { intros e' [= <-] Hn. split; [done|]. intros Hwf.
    apply Forall_cons in Hwf as [[? ?] _]. tauto. }
  unfold entry_binding, entry_key in Hhead.
  destruct (find "vcp:Binding" impl) as [b|].
  2:{ apply Hhead; [done|]. left. by intros [? ?]. }
  destruct (op_of impl) as [o|].
  2:{ destruct (is_xml_post (text b)); (apply Hhead; [done|]);
        right; by intros [? ?]. }
  destruct (is_xml_post (text b)); [by eapply Hrest|].
  destruct (acc !! text o); by eapply Hrest.
Qed.

Lemma build_bindings_ok_wf (url : string) (doc : list Element) :
  forall acc t, build_bindings url doc acc = Ok t -> Forall well_formed_entry doc.
Proof.
  induction doc as [|impl doc IH]; intros acc t Hb; [done|].
  simpl in Hb. apply Forall_cons.
  unfold well_formed_entry, entry_binding, entry_key.
  destruct (find "vcp:Binding" impl) as [b|]; [|discriminate].
  destruct (op_of impl) as [o|];
    [|destruct (is_xml_post (text b)); discriminate].
  split; [split; by eexists|].
  destruct (is_xml_post (text b)); [by eapply IH|].
  destruct (acc !! text o); by eapply IH.
Qed.

(** X7: the loop over the profile entries returns a table exactly when
    every entry names a binding and an operation (or transaction); one
    entry that lacks either makes the whole construction raise
    [AttributeError], whatever the other entries are. *)
Theorem discovery_needs_complete_entries (url : string) (doc : list Element) :
  (Forall well_formed_entry doc <-> exists t, build_bindings url doc ∅ = Ok t)
  /\ (~ Forall well_formed_entry doc ->
      build_bindings url doc ∅ = Raise AttributeError).
Proof.
  split; [split|].
  - apply build_bindings_total.
  - intros [t Ht]. by eapply build_bindings_ok_wf.
  - intros Hn. destruct (build_bindings url doc ∅) as [t|e] eqn:Hb.
    + exfalso. apply Hn. by eapply build_bindings_ok_wf.
    + by destruct (build_bindings_raises url doc _ _ Hb) as [-> _].
Qed.

Lemma discovery_needs_complete_entries_witness :
  build_bindings "https://p.example/vc" Sample.incomplete_profile ∅
  = Raise AttributeError.
Proof.
  apply (proj2 (discovery_needs_complete_entries "https://p.example/vc"
                  Sample.incomplete_profile)).
  intros Hwf. apply Forall_app in Hwf as [_ Hwf].
  apply Forall_cons in Hwf as [[_ [o Ho]] _]. discriminate Ho.
Defined.

(** X8: a resolved table lists exactly the names the entries of the
    profile give: a name is bound when, and only when, some entry is
    filed under it. *)
Theorem table_lists_named_operations (url : string) (doc : list Element)
    (t : BindingTable) (k : option string) :
  build_bindings url doc ∅ = Ok t ->
  (is_Some (t !! k) <-> entries_of k doc <> []).
Proof.
  intros Hb. rewrite (build_bindings_lookup url doc ∅ t k Hb), lookup_empty.
  unfold last_xml_uri, first_entry.
  destruct (last (filter _ (entries_of k doc))) as [x|] eqn:Hl; simpl.
  - split; [|by eexists]. intros _ He. rewrite He in Hl. discriminate.
  - destruct (entries_of k doc) as [|impl l]; simpl.
    + split; [by intros [? ?]|done].
    + split; [done|by eexists].
Qed.

Lemma table_lists_named_operations_witness :
  (is_Some ((<[Some "TextSearch" := (Some "XML-POST", "https://a.example/post")]> ∅
             : BindingTable) !! Some "Order")
   <-> entries_of (Some "Order") Sample.url_then_post <> []).
Proof.
  exact (table_lists_named_operations "https://p.example/vc" Sample.url_then_post
           _ (Some "Order") eq_refl).
Defined.

(** X9: the discovery does not look at the response code. When the
    partner answers it with a well-formed document that is not a profile
    (an error envelope, say), the session is resolved with an empty
    table; from then on every dispatch raises the error 404 without
    issuing a request, and no call repeats the discovery. *)
Theorem error_profile_resolves_empty (X : Externals) (ctx : Context)
    (sent : list HttpRequest) (body : string) (root : Element) :
  _params ctx = None ->
  http_send X sent (discovery_request ctx) = Some body ->
  etree_fromstring X body = Some root ->
  tag root <> "vcp:GetProfileResponse" ->
  let ctx' := set_params ctx (Some ∅) in
  _load_params X ctx sent = ((Ok tt, ctx'), sent ++ [discovery_request ctx])
  /\ (forall request s,
        dispatch_request X ctx' request s
        = (Raise (VeloConnectException ERR_NOT_SUPPORTED
                    "Request not supported. (Code: 404)"), s))
  /\ (forall names s, gets X ctx' names s = (ctx', s)).
Proof.
  intros Hnone Hs Hx Ht ctx'. split; [|split].
  - unfold _load_params, get_params, bind, query_get, http. rewrite Hnone.
    unfold discovery_request in Hs. simpl. rewrite Hs, Hx.
    unfold lift, xpath_root3, xpath_root2, xpath_root.
    by rewrite bool_decide_eq_false_2.
  - intros request s. unfold dispatch_request. simpl.
    rewrite lookup_empty. by rewrite bool_decide_eq_true_2.
  - intros names s. by apply (gets_resolved X names ctx' ∅).
Qed.

Lemma error_profile_resolves_empty_witness :
  let X := Sample.partner ["404"] Sample.documents in
  let ctx' := set_params Sample.fresh (Some ∅) in
  _load_params X Sample.fresh []
  = ((Ok tt, ctx'), [discovery_request Sample.fresh])
  /\ (forall request s,
        dispatch_request X ctx' request s
        = (Raise (VeloConnectException 404 "Request not supported. (Code: 404)"), s))
  /\ (forall names s, gets X ctx' names s = (ctx', s)).
Proof.
  intros X ctx'.
  apply (error_profile_resolves_empty X Sample.fresh [] "404" Sample.not_supported
           eq_refl eq_refl eq_refl).
  discriminate.
Defined.

(** X10: a class handed out by [Context.get] is bound to a resolved
    session: the session after the call holds a table, differs from the
    session before the call in nothing else, and is the one the class
    carries; an unknown class name still resolves the session and yields
    [None]. *)
Theorem get_binds_resolved_session (X : Externals) (ctx ctx' : Context)
    (clsname : string) (sent sent' : list HttpRequest) (cls : model_class) :
  get X ctx clsname sent = ((Ok cls, ctx'), sent') ->
  is_Some (_params ctx')
  /\ ctx' = set_params ctx (_params ctx')
  /\ cls = (if bool_decide (clsname = "Product") then ProductClass ctx'
            else if bool_decide (clsname = "Order") then OrderClass ctx'
            else NoClass).
Proof.
  unfold get, _load_params. destruct (_params ctx) as [t|] eqn:Hp.
  - intros [= <- <- <-]. rewrite Hp. split; [by eexists|]. split; [|done].
    destruct ctx. simpl in *. by subst.
  - destruct (get_params X ctx sent) as [[t|e] s]; [|discriminate].
    intros [= <- <- <-]. simpl. split; [by eexists|]. done.
Qed.

Lemma get_binds_resolved_session_witness :
  let X := Sample.partner ["profile"] Sample.profiles in
  let ctx' := set_params Sample.fresh
                (Some (<[Some "TextSearch"
                         := (Some "XML-POST", "https://a.example/post")]> ∅)) in
  is_Some (_params ctx')
  /\ ctx' = set_params Sample.fresh (_params ctx')
  /\ NoClass = (if bool_decide ("Basket" = "Product") then ProductClass ctx'
                else if bool_decide ("Basket" = "Order") then OrderClass ctx'
                else NoClass).
Proof.
  intros X ctx'.
  exact (get_binds_resolved_session X Sample.fresh ctx' "Basket" []
           [discovery_request Sample.fresh] NoClass eq_refl).
Defined.

(** X11: on a partner whose table does not list the rollback operation,
    [rollback] returns normally and issues no request: the error 404 that
    the dispatch raises before any attempt is swallowed like the one a
    partner sends. *)
Theorem rollback_unlisted_is_silent (X : Externals) (ctx : Context)
    (params : BindingTable) (data : Element) (sent : list HttpRequest) :
  _params ctx = Some params ->
  params !! Some "Rollback" = None ->
  rollback X ctx data sent = (Ok tt, sent).
Proof.
  intros Hctx Hp. unfold rollback, Rollback_execute, bind, dispatch_request.
  rewrite Hctx. simpl. rewrite Hp. by rewrite bool_decide_eq_true_2.
Qed.

Lemma rollback_unlisted_is_silent_witness :
  rollback (Sample.partner [] []) Sample.url_only_session Sample.order_created []
  = (Ok tt, []).
Proof.
  exact (rollback_unlisted_is_silent (Sample.partner [] []) Sample.url_only_session
           Sample.url_only_table Sample.order_created [] eq_refl eq_refl).
Defined.

(** * Further properties of the catalog operations *)

(** X12: the search step alone decides three outcomes of [search] and
    [search_read]: with the count flag they return the total count, with
    a total of 0 they return the empty list, and when the step fails they
    fail with it; in all three no search-result request follows the
    requests of the search step. *)
Theorem search_without_result_request (X : Externals) (ctx : Context)
    (keywords : option string) (offset limit : Z) (count : bool)
    (sent sent1 : list HttpRequest) :
  (forall root,
      dispatch_request X ctx (CreateTextSearch keywords) sent = (Ok root, sent1) ->
      (count = true ->
       search X ctx keywords offset limit count sent
       = (Ok (SCount (field_count X root)), sent1)
       /\ search_read X ctx keywords offset limit count sent
          = (Ok (SCount (field_count X root)), sent1))
      /\ (count = false -> field_count X root = Some 0 ->
          search X ctx keywords offset limit count sent = (Ok SEmpty, sent1)
          /\ search_read X ctx keywords offset limit count sent
             = (Ok SEmpty, sent1)))
  /\ (forall e,
        dispatch_request X ctx (CreateTextSearch keywords) sent = (Raise e, sent1) ->
        search X ctx keywords offset limit count sent = (Raise e, sent1)
        /\ search_read X ctx keywords offset limit count sent = (Raise e, sent1)).
Proof.
  split.
  - intros root Hd. split.
    + intros ->. unfold search, search_read, CreateTextSearch_execute, bind.
      by rewrite Hd.
    + intros -> Hz. unfold search, search_read, CreateTextSearch_execute, bind.
      rewrite Hd. simpl. by rewrite Hz.
  - intros e Hd. unfold search, search_read, CreateTextSearch_execute, bind.
    by rewrite Hd.
Qed.

Lemma search_without_result_request_witness :
  let X := Sample.partner ["found"] Sample.catalog in
  let r1 := HttpGet "https://p.example/get"
              [("RequestName", PStr "CreateTextSearchRequest");
               ("SearchString", PStr "tyre");
               ("BuyersID", PStr "buyer"); ("Password", PStr "secret");
               ("IsTest", PBool false)] in
  search X (Sample.session true 3) (Some "tyre") 0 20 true []
  = (Ok (SCount (Some 17)), [r1])
  /\ search_read X (Sample.session true 3) (Some "tyre") 0 20 true []
     = (Ok (SCount (Some 17)), [r1]).
Proof.
  intros X r1.
  exact (proj1 (proj1 (search_without_result_request X (Sample.session true 3)
                         (Some "tyre") 0 20 true [] [r1])
                  Sample.found_17 eq_refl) eq_refl).
Defined.

Lemma xpath_ids_of_response (t code : string) (wrap : Element -> Element)
    (ids : list string) :
  wrap = (fun e => e) \/ wrap = in_item_detail ->
  xpath_any2 "cac:SellersItemIdentification" "cac:ID" (id_response t code wrap ids)
  = map (E "cac:ID") ids.
Proof.
  intros Hw. unfold xpath_any2, id_response. cbn [children EN tag flat_map].
  cbn [iter_under E flat_map]. rewrite andb_false_r. cbn [app].
  induction ids as [|id ids IH]; [done|].
  cbn [map flat_map]. rewrite IH.
  destruct Hw as [-> | ->]; unfold in_item_detail, EN, E; cbn [iter_under flat_map];
    rewrite ?andb_false_r; reflexivity.
Qed.

(** X13: the identifiers of a search-result response are read wherever
    the identifications stand: for a response that lists them directly
    under the document element, and for one that lists them inside item
    details, [SearchResult.execute] returns the identifiers in the order
    of the document. *)
Theorem search_result_reads_ids (X : Externals) (ctx : Context)
    (tan : option string) (offset : Z) (limit : pyval)
    (sent s : list HttpRequest) (t code : string) (wrap : Element -> Element)
    (ids : list string) :
  wrap = (fun e => e) \/ wrap = in_item_detail ->
  dispatch_request X ctx (SearchResult tan offset limit) sent
  = (Ok (id_response t code wrap ids), s) ->
  SearchResult_execute X ctx tan offset limit sent = (Ok (map Some ids), s).
Proof.
  intros Hw Hd. unfold SearchResult_execute, bind. rewrite Hd. unfold ret.
  rewrite (xpath_ids_of_response t code wrap ids Hw).
  rewrite map_map. reflexivity.
Qed.

Lemma search_result_reads_ids_witness :
  let X := Sample.partner ["ids"] Sample.id_pages in
  let r := HttpGet "https://p.example/get"
             [("RequestName", PStr "SearchResultRequest");
              ("TransactionID", PStr "T7");
              ("StartIndex", PInt 0);
              ("Count", PInt 2);
              ("ResultFormat", PStr "ID_ONLY");
              ("BuyersID", PStr "buyer"); ("Password", PStr "secret");
              ("IsTest", PBool false)] in
  SearchResult_execute X (Sample.session true 3) (Some "T7") 0 (PInt 2) []
  = (Ok [Some "A1"; Some "A2"], [r]).
Proof.
  intros X r.
  exact (search_result_reads_ids X (Sample.session true 3) (Some "T7") 0 (PInt 2)
           [] [r] "vcc:SearchResultResponse" "200" in_item_detail ["A1"; "A2"]
           (or_intror eq_refl) eq_refl).
Defined.

(** X14: the URL rendering of an order reads back what [_build_lines]
    wrote: for the lines built from codes, unit codes and quantities,
    [CreateOrder.get_url_args] does not raise and yields the request name
    followed, line by line and in order, by the quantity and the unit
    code under the product's code. *)
Theorem order_lines_round_trip (lines : list (string * string * pyval)) :
  order_url_args (_build_lines lines) = Ok (flat_map line_params lines)
  /\ get_url_args (CreateOrder (_build_lines lines))
     = Ok (("RequestName", PStr "CreateOrderRequest") :: flat_map line_params lines).
Proof.
  assert (order_url_args (_build_lines lines) = Ok (flat_map line_params lines)) as H.
  { induction lines as [|l lines IH]; [done|].
    change (_build_lines (l :: lines)) with
      (EN "vco:OrderRequestLine"
           [EN "cac:SellersItemIdentification" [E "cac:ID" l.1.1];
            Elem "cbc:Quantity" [("quantityUnitCode", l.1.2)]
              (Some (py_str l.2)) []] :: _build_lines lines).
    cbn [order_url_args]. rewrite IH. reflexivity. }
  split; [exact H|]. cbn [get_url_args]. by rewrite H.
Qed.

(** * Product properties *)

Lemma name_sub_no_line_break (s : list N) :
  forall skip, no_line_break (name_sub skip s) = true.
Proof.
  unfold no_line_break.
  induction s as [|c s IH]; intros skip; [done|].
  cbn [name_sub]. destruct skip as [|k]; [|apply IH].
  destruct (is_line_break c) eqn:Hc; [cbn; apply IH|].
  case_bool_decide; cbn [forallb].
  - apply IH.
  - rewrite Hc. apply IH.
Qed.

Lemma name_sub_length (s : list N) :
  forall skip, (length (name_sub skip s) <= length s)%nat.
Proof.
  induction s as [|c s IH]; intros skip; [done|].
  cbn [name_sub]. destruct skip as [|k].
  - pose proof (IH 0%nat). pose proof (IH 5%nat).
    destruct (is_line_break c); [|case_bool_decide]; cbn [length]; lia.
  - cbn [length]. specialize (IH k). lia.
Qed.

Lemma name_sub_plain (s : list N) : plain s = true -> name_sub 0 s = s.
Proof.
  unfold plain. induction s as [|c s IH]; [done|]. cbn [forallb name_sub].
  intros [Hc Hs]%andb_true_iff. unfold plain_char in Hc.
  apply andb_true_iff in Hc as [Hb Ha].
  apply negb_true_iff in Hb. apply negb_true_iff, bool_decide_eq_false in Ha.
  rewrite Hb. rewrite bool_decide_eq_false_2.
  - by rewrite IH.
  - unfold nbsp. cbn [take]. intros [= ? _]. done.
Qed.

Lemma take_plain (n : nat) (s : list N) :
  plain s = true -> plain (take n s) = true.
Proof.
  unfold plain. revert n. induction s as [|c s IH]; intros [|n]; cbn; try done.
  intros [Hc Hs]%andb_true_iff. rewrite Hc. by apply IH.
Qed.

(** X15: the display name of a product is defined exactly when its
    description is; it holds no line break and at most 103 characters;
    and for a description without line breaks and ampersands it is the
    first 100 characters of the description followed by three dots. *)
Theorem name_is_one_short_line (description : option (list N)) :
  match description with
  | None => name description = None
  | Some d =>
      exists n,
        name description = Some n
        /\ no_line_break n = true
        /\ (length n <= 103)%nat
        /\ (plain d = true -> n = take 100 d ++ dots)
  end.
Proof.
  destruct description as [d|]; [|reflexivity].
  eexists. split; [reflexivity|]. split; [apply name_sub_no_line_break|]. split.
  - etrans; [apply name_sub_length|]. rewrite length_app, length_take.
    cbn [length dots]. lia.
  - intros Hp. apply name_sub_plain. unfold plain. rewrite forallb_app.
    fold (plain (take 100 d)). by rewrite take_plain.
Qed.

Example name_of_marked_up_description :
  name (Some (chars "Rear tyre&nbsp;28" ++ [10%N] ++ chars "black"))
  = Some (chars "Rear tyre 28 black...").
Proof. reflexivity. Qed.

(** A description of 100 characters one of which is not ASCII (e acute,
    code point 233): all of it is kept. *)
Example name_counts_characters :
  name (Some (replicate 98 97%N ++ [233%N; 122%N]))
  = Some (replicate 98 97%N ++ [233%N; 122%N] ++ dots).
Proof. reflexivity. Qed.

Lemma ean13_nodes_of_item (t : string) (ids : list (string * option string)) :
  ean13_nodes (item_with_ids t ids)
  = map scheme_id (filter (fun p => p.1 = "EAN/UCC-13") ids).
Proof.
  unfold ean13_nodes, item_with_ids, step. cbn [children EN].
  rewrite filter_cons. rewrite decide_True by done.
  rewrite filter_nil. cbn [flat_map children EN]. rewrite app_nil_r.
  induction ids as [|p ids IH]; [done|].
  cbn [map]. rewrite filter_cons. rewrite decide_True by done.
  cbn [flat_map]. unfold identification at 1. cbn [children EN].
  rewrite filter_cons. rewrite decide_True by done. rewrite filter_nil.
  cbn [app]. rewrite !filter_cons.
  change (attr_get "identificationSchemeID" (attrib (scheme_id p)))
    with (Some p.1).
  destruct (decide (p.1 = "EAN/UCC-13")) as [Hp|Hp].
  - rewrite decide_True by (by rewrite Hp). cbn [map]. by rewrite IH.
  - rewrite decide_False by congruence. exact IH.
Qed.

(** X16: the EAN of a product is looked for along the path
    [cac:Item/cac:StandardItemIdentification/cac:ID], among the nodes
    whose scheme attribute is EAN/UCC-13 and nowhere else; of a product
    whose item lists identifications in some order, it is the value of
    the first one of that scheme when that value is not empty, and [None]
    when there is none of that scheme or when the first one is empty,
    whatever follows. *)
Theorem ean13_reads_first_match (data : Element) (t : string)
    (ids : list (string * option string)) :
  (forall e,
      e ∈ ean13_nodes data <->
      exists item sid,
        item ∈ children data /\ tag item = "cac:Item"
        /\ sid ∈ children item /\ tag sid = "cac:StandardItemIdentification"
        /\ e ∈ children sid /\ tag e = "cac:ID"
        /\ attr_get "identificationSchemeID" (attrib e) = Some "EAN/UCC-13")
  /\ ean13 (item_with_ids t ids)
     = match head (filter (fun p => p.1 = "EAN/UCC-13") ids) with
       | Some p => if truthy p.2 then p.2 else None
       | None => None
       end.
Proof.
  split.
  - intros e. unfold ean13_nodes, step. rewrite list_elem_of_filter.
    rewrite list_elem_of_In, in_flat_map. split.
    + intros (Ha & sid & Hsid & He).
      apply in_flat_map in Hsid as (item & Hitem & Hsid).
      apply list_elem_of_In, list_elem_of_filter in Hitem as [? ?].
      apply list_elem_of_In, list_elem_of_filter in Hsid as [? ?].
      apply list_elem_of_In, list_elem_of_filter in He as [? ?].
      exists item, sid. done.
    + intros (item & sid & Hitem & Hti & Hsid & Hts & He & Hte & Ha).
      split; [done|]. exists sid. split.
      * apply in_flat_map. exists item.
        split; apply list_elem_of_In, list_elem_of_filter; done.
      * apply list_elem_of_In, list_elem_of_filter; done.
  - unfold ean13. rewrite ean13_nodes_of_item.
    by destruct (filter _ ids) as [|p l].
Qed.

Example ean13_skips_other_schemes_not_empty_matches :
  ean13 Sample.product_with_eans = None
  /\ ean13 (EN "vco:ItemDetail"
              [EN "cac:Item"
                 [EN "cac:StandardItemIdentification"
                    [Sample.ean_id "GTIN-14" (Some "04012345678901");
                     Sample.ean_id "EAN/UCC-13" (Some "4012345678901")]]])
     = Some "4012345678901".
Proof. split; reflexivity. Qed.

(** * The raw flag and the wire *)

Lemma fetch_loop_flag (X : Externals) (ctx : Context) (b : bool)
    (params : BindingTable) (request : Operation) :
  forall n ntry sent,
    fetch_loop X (with_use_objects ctx b) params request n ntry sent
    = fetch_loop X ctx params request n ntry sent.
Proof.
  induction n as [|n IH]; intros ntry sent; [done|].
  cbn [fetch_loop]. unfold bind.
  change (fetch X (with_use_objects ctx b) params request sent)
    with (fetch X ctx params request sent).
  destruct (fetch X ctx params request sent) as [[body|e] s]; [|done].
  destruct (etree_fromstring X body); [done|apply IH].
Qed.

Lemma dispatch_flag (X : Externals) (ctx : Context) (b : bool)
    (request : Operation) (sent : list HttpRequest) :
  dispatch_request X (with_use_objects ctx b) request sent
  = dispatch_request X ctx request sent.
Proof.
  unfold dispatch_request. cbn [with_use_objects _params MAX_FETCH_TRIES].
  destruct (_params ctx) as [params|]; [|done].
  case_bool_decide; [done|]. case_bool_decide; [done|].
  unfold bind. by rewrite fetch_loop_flag.
Qed.

(** X17: the [use_objects] argument of a session changes nothing on the
    wire: a dispatch issues the same requests and has the same outcome
    under either value; where the batch lookup and the full-detail search
    results return the matched nodes in raw mode, they return in mapped
    mode the products of those nodes that have no replacement, and where
    they fail in one mode they fail alike in the other. *)
Theorem use_objects_only_shapes_results (X : Externals) (ctx : Context)
    (sent : list HttpRequest) :
  (forall b request,
      dispatch_request X (with_use_objects ctx b) request sent
      = dispatch_request X ctx request sent)
  /\ (forall codes,
        match GetItemDetailsList_execute X (with_use_objects ctx false) codes sent with
        | (Ok (RNodes l), s) =>
            GetItemDetailsList_execute X (with_use_objects ctx true) codes sent
            = (Ok (RProducts (kept X l)), s)
        | (Ok _, s) => False
        | (Raise e, s) =>
            GetItemDetailsList_execute X (with_use_objects ctx true) codes sent
            = (Raise e, s)
        end)
  /\ (forall tan offset limit,
        match SearchReadResult_execute X (with_use_objects ctx false)
                tan offset limit sent with
        | (Ok (RNodes l), s) =>
            SearchReadResult_execute X (with_use_objects ctx true)
              tan offset limit sent
            = (Ok (RProducts (kept X l)), s)
        | (Ok _, s) => False
        | (Raise e, s) =>
            SearchReadResult_execute X (with_use_objects ctx true)
              tan offset limit sent
            = (Raise e, s)
        end).
Proof.
  split; [intros b request; apply dispatch_flag|]. split.
  - intros codes. unfold GetItemDetailsList_execute, bind. rewrite !dispatch_flag.
    destruct (dispatch_request X ctx (GetItemDetailsList codes) sent)
      as [[root|e] s]; [|done].
    unfold ret, items_returned. cbn [with_use_objects _use_objects negb].
    by rewrite format_items_kept.
  - intros tan offset limit. unfold SearchReadResult_execute, bind.
    rewrite !dispatch_flag.
    destruct (dispatch_request X ctx (SearchReadResult tan offset limit) sent)
      as [[root|e] s]; [|done].
    unfold ret, items_returned. cbn [with_use_objects _use_objects negb].
    by rewrite format_items_kept.
Qed.

(** * The order lifecycle *)

(** X18: on a resolved session that lists the order operation, with a
    budget of at least one attempt, [Order.finish] sends nothing but the
    finish request rendered with the transaction identifier read from the
    data the order holds at that moment: under a binding other than
    XML-POST, between one and [MAX_FETCH_TRIES] copies of the GET with
    [RequestName] and [TransactionID]; under XML-POST and with an
    identifier in the data, as many copies of the POST of the document
    that carries it; under XML-POST and without an identifier it raises
    [TypeError] and sends nothing. When the call returns, the order keeps
    its session and holds the envelope of the answer. *)
Theorem finish_sends_order_tan (X : Externals) (o : Order)
    (params : BindingTable) (binding : option string) (uri : string)
    (sent : list HttpRequest) :
  _params (order_ctx o) = Some params ->
  params !! Some "Order" = Some (binding, uri) ->
  1 <= MAX_FETCH_TRIES (order_ctx o) ->
  (binding <> Some "XML-POST" ->
   exists k, (1 <= k <= Z.to_nat (MAX_FETCH_TRIES (order_ctx o)))%nat
             /\ (finish X o sent).2
                = sent
                  ++ replicate k
                       (HttpGet uri
                          [("RequestName", PStr "FinishOrderRequest");
                           ("TransactionID", opt_val (field_tan X (order_data o)));
                           ("BuyersID", PStr (_userid (order_ctx o)));
                           ("Password", PStr (_passwd (order_ctx o)));
                           ("IsTest", PBool (_istest (order_ctx o)))]))
  /\ (binding = Some "XML-POST" ->
      forall t,
        field_tan X (order_data o) = Some t ->
        exists k, (1 <= k <= Z.to_nat (MAX_FETCH_TRIES (order_ctx o)))%nat
                  /\ (finish X o sent).2
                     = sent
                       ++ replicate k
                            (HttpPost uri
                               (xml_declaration
                                +:+ etree_tostring X
                                      (EN "vco:FinishOrderRequest"
                                         (_xml_auth (order_ctx o)
                                          ++ [E "vct:TransactionID" t;
                                              _xml_istest (order_ctx o)])))
                               XML_POST_HEADER))
  /\ (binding = Some "XML-POST" ->
      field_tan X (order_data o) = None ->
      finish X o sent = (Raise TypeError, sent))
  /\ (forall o' s,
        finish X o sent = (Ok o', s) ->
        order_ctx o' = order_ctx o
        /\ dispatch_request X (order_ctx o)
             (FinishOrder (field_tan X (order_data o))) sent
           = (Ok (order_data o'), s)).
Proof.
  intros Hctx Hp Hn.
  assert (forall r,
             rendered X (order_ctx o) binding uri
               (FinishOrder (field_tan X (order_data o))) = Ok r ->
             exists k, (1 <= k <= Z.to_nat (MAX_FETCH_TRIES (order_ctx o)))%nat
                       /\ (finish X o sent).2 = sent ++ replicate k r) as Hlog.
  { intros r Hr.
    destruct (dispatch_log X (order_ctx o) params
                (FinishOrder (field_tan X (order_data o))) binding uri r sent
                Hctx Hp Hr Hn) as (k & Hk & Hl).
    exists k. split; [done|]. unfold finish, FinishOrder_execute.
    by rewrite bind_ret_log. }
  split; [|split; [|split]].
  - intros Hb. apply Hlog. unfold rendered.
    by rewrite bool_decide_eq_false_2.
  - intros -> t Ht. apply Hlog. unfold rendered.
    rewrite bool_decide_eq_true_2 by done. cbn [get_xml]. by rewrite Ht.
  - intros -> Ht. unfold finish, FinishOrder_execute, bind.
    rewrite (dispatch_unrendered X (order_ctx o) params
               (FinishOrder (field_tan X (order_data o))) (Some "XML-POST") uri
               TypeError sent Hctx Hp Hn); [done|].
    unfold rendered. rewrite bool_decide_eq_true_2 by done.
    cbn [get_xml]. by rewrite Ht.
  - intros o' s H. apply bind_ok_inv in H as (root & s1 & Hd & Hk).
    unfold ret in Hk. injection Hk as <- <-. done.
Qed.

Lemma finish_sends_order_tan_witness :
  let X := Sample.partner ["created"; "created"] Sample.orders in
  let o := {| order_data := Sample.order_created;
              order_ctx := Sample.url_only_session |} in
  let r0 := HttpGet "https://p.example/get"
              [("RequestName", PStr "CreateOrderRequest");
               ("Quantity.A1", PStr "2"); ("quantityUnitCode.A1", PStr "C62");
               ("BuyersID", PStr "buyer"); ("Password", PStr "secret");
               ("IsTest", PBool false)] in
  let r := HttpGet "https://p.example/get"
             [("RequestName", PStr "FinishOrderRequest");
              ("TransactionID", PStr "T9");
              ("BuyersID", PStr "buyer"); ("Password", PStr "secret");
              ("IsTest", PBool false)] in
  create X Sample.url_only_session [("A1", "C62", PInt 2)] [] = (Ok (ROrder o), [r0])
  /\ exists k, (1 <= k <= 3)%nat /\ (finish X o [r0]).2 = [r0] ++ replicate k r.
Proof.
  intros X o r0 r. split; [reflexivity|].
  apply (proj1 (finish_sends_order_tan X o Sample.url_only_table (Some "URL")
                  "https://p.example/get" [r0] eq_refl eq_refl
                  ltac:(simpl; lia))).
  discriminate.
Defined.

(** The sample order from creation to completion. *)
Example create_then_finish :
  let X := Sample.partner ["created"; "created"] Sample.orders in
  let o := {| order_data := Sample.order_created;
              order_ctx := Sample.url_only_session |} in
  forall s1, (create X Sample.url_only_session [("A1", "C62", PInt 2)] []).2 = s1 ->
  finish X o s1
  = (Ok o,
     s1 ++ [HttpGet "https://p.example/get"
              [("RequestName", PStr "FinishOrderRequest");
               ("TransactionID", PStr "T9");
               ("BuyersID", PStr "buyer"); ("Password", PStr "secret");
               ("IsTest", PBool false)]]).
Proof. intros X o s1 <-. vm_compute. reflexivity. Qed.

(** * The discovery request *)

(** X19: the discovery makes one attempt, whatever the budget of the
    session: it issues exactly the discovery request; a failure of the
    transport and a malformed body end it at once, with
    [RequestException] and [XMLSyntaxError]; a well-formed body is turned
    into a table from its [Implements] entries alone. *)
Theorem discovery_makes_one_attempt (X : Externals) (ctx : Context)
    (sent : list HttpRequest) :
  (get_params X ctx sent).2 = sent ++ [discovery_request ctx]
  /\ (http_send X sent (discovery_request ctx) = None ->
      (get_params X ctx sent).1 = Raise RequestException)
  /\ (forall body,
        http_send X sent (discovery_request ctx) = Some body ->
        etree_fromstring X body = None ->
        (get_params X ctx sent).1 = Raise XMLSyntaxError)
  /\ (forall body root,
        http_send X sent (discovery_request ctx) = Some body ->
        etree_fromstring X body = Some root ->
        (get_params X ctx sent).1
        = build_bindings (_url ctx)
            (xpath_root3 "vcp:GetProfileResponse" "vcp:VeloconnectProfile"
               "vcp:Implements" root) ∅).
Proof.
  split; [apply get_params_log|].
  unfold get_params, bind, query_get, http, discovery_request. simpl.
  split; [|split].
  - by intros ->.
  - by intros body -> ->.
  - by intros body root -> ->.
Qed.

Lemma discovery_makes_one_attempt_witness :
  (get_params (Sample.partner ["<broken"; "profile"] Sample.profiles)
     Sample.fresh []).1
  = Raise XMLSyntaxError.
Proof.
  exact (proj1 (proj2 (proj2 (discovery_makes_one_attempt
                               (Sample.partner ["<broken"; "profile"] Sample.profiles)
                               Sample.fresh [])))
           "<broken" eq_refl eq_refl).
Defined.

Lemma last_filter_elem {A} (P : A -> Prop) `{!forall x, Decision (P x)}
    (l : list A) (x : A) :
  last (filter P l) = Some x -> x ∈ l /\ P x.
Proof.
  intros Hlast. apply last_Some_elem_of in Hlast.
  apply list_elem_of_filter in Hlast as [? ?]. done.
Qed.

Lemma head_elem {A} (l : list A) (x : A) : head l = Some x -> x ∈ l.
Proof. destruct l; [discriminate|]. intros [= ->]. by left. Qed.

Lemma no_uri_entry_uri (url : string) (impl : Element) :
  no_uri impl = true -> entry_uri url impl = url.
Proof.
  unfold no_uri, entry_uri, uri_text_of.
  destruct (find "vcp:URI" impl) as [u|]; [|done].
  by destruct (truthy (text u)).
Qed.

(** X20: the address of an operation defaults to the address of the
    session: when no entry of the profile gives a URI (or only empty
    ones), every binding of the resolved table points at the session's
    own URL. *)
Theorem bindings_default_to_session_url (url : string) (doc : list Element)
    (t : BindingTable) (k : option string) (binding : option string)
    (uri : string) :
  Forall (fun impl => no_uri impl = true) doc ->
  build_bindings url doc ∅ = Ok t ->
  t !! k = Some (binding, uri) ->
  uri = url.
Proof.
  intros Hno Hb Hk. rewrite (build_bindings_lookup url doc ∅ t k Hb) in Hk.
  rewrite lookup_empty in Hk. rewrite Forall_forall in Hno.
  unfold last_xml_uri, first_entry in Hk.
  destruct (last (filter _ (entries_of k doc))) as [x|] eqn:Hl; simpl in Hk.
  - injection Hk as _ <-. apply last_filter_elem in Hl as [Hin _].
    apply list_elem_of_filter in Hin as [_ Hin].
    by apply no_uri_entry_uri, Hno.
  - destruct (head (entries_of k doc)) as [x|] eqn:Hh; [|discriminate].
    simpl in Hk. injection Hk as _ <-. apply head_elem in Hh.
    apply list_elem_of_filter in Hh as [_ Hin].
    by apply no_uri_entry_uri, Hno.
Qed.

Lemma bindings_default_to_session_url_witness :
  let t : BindingTable :=
    <[Some "GetItemDetails" := (Some "URL", "https://p.example/vc")]>
      (<[Some "Order" := (Some "XML-POST", "https://p.example/vc")]> ∅) in
  build_bindings "https://p.example/vc" Sample.bare_profile ∅ = Ok t
  /\ t !! Some "Order" = Some (Some "XML-POST", "https://p.example/vc")
  /\ "https://p.example/vc" = "https://p.example/vc".
Proof.
  intros t. split; [reflexivity|]. split; [reflexivity|].
  apply (bindings_default_to_session_url "https://p.example/vc" Sample.bare_profile
           t (Some "Order") (Some "XML-POST") "https://p.example/vc").
  - repeat constructor.
  - reflexivity.
  - reflexivity.
Defined.
